(** * forecast.py: the one-step rating forecaster, as a shallow embedding

    The script reads a CSV file, checks that it has a [date] and a [rating]
    column, prepares the rows (projection, sort, date parsing, numeric
    coercion, dropping missing ratings) and hands the prepared series to the
    Prophet forecasting package.  Everything it computes itself is control
    flow: which stream gets which line, and which exit status ends the
    process.  The libraries it calls (pandas, prophet, json) are taken as
    interfaces; the script is a function of them. *)

From Stdlib Require Import List String Ascii ZArith Bool Lia.
From Stdlib Require Import Permutation Sorted.
Import ListNotations.
Local Open Scope string_scope.

Set Implicit Arguments.

(** ** Python values and exceptions *)

(** The line feed that ends every line the script writes. *)
Definition nl : string := String "010"%char EmptyString.

(** The double quote of the JSON key. *)
Definition dq : string := String "034"%char EmptyString.

(** A library call either returns a value or raises an exception of a class
    derived from [Exception]; [msg] is what [str(e)] (and so [f'{e}'])
    gives. *)
Inductive result (A : Type) : Type :=
| Ok (a : A)
| Raise (msg : string).
Arguments Ok {A} a.
Arguments Raise {A} msg.

(** What can propagate out of a statement: an [Exception], which
    [except Exception] catches, or the [SystemExit] that [sys.exit] raises,
    which it does not. *)
Inductive pyexn : Type :=
| Exception (msg : string)
| SystemExit (code : Z).

Inductive completion (A : Type) : Type :=
| Normal (a : A)
| Raised (e : pyexn).
Arguments Normal {A} a.
Arguments Raised {A} e.

(** ** The libraries, as interfaces *)

(** The two columns the script keeps, [df[['date', 'rating']]]. *)
Record Selected (Cell : Type) : Type := MkSelected {
  date : Cell;
  rating : Cell
}.

(** The frame after the two assignments [df['ds'] = ...] and
    [df['y'] = ...]. *)
Record Prepared (Cell Timestamp Float : Type) : Type := MkPrepared {
  p_date : Cell;
  p_rating : Cell;
  ds : Timestamp;
  y : Float
}.

Section Frames.
Variable Cell : Type.

(** A row of a loaded table gives a cell for a column label; it is
    meaningful on the labels of [columns]. *)
Definition Row : Type := string -> Cell.

Record Table : Type := MkTable {
  columns : list string;
  rows : list Row
}.

(** The order a sort by the [date] column has to respect. *)
Definition date_key_le (le : Cell -> Cell -> bool) (a b : Selected Cell) : Prop :=
  le (date a) (date b) = true.
End Frames.

(** pandas (and [json.dumps] on a float), as far as the script uses them.
    - [Cell] is a value of a loaded column, [Timestamp] a value of a
      [datetime64] column ([NaT] included), [Float] a value of a [float64]
      column ([NaN] included);
    - [read_csv] depends on the file system: it raises when the file is
      missing, unreadable or cannot be parsed;
    - [cell_le] is the comparison [sort_values] sorts a column with (missing
      values last), [sort_values] the sort of the projected frame by its
      [date] column;
    - [to_datetime] converts a whole column and raises (the default
      [errors='raise']) when it cannot;
    - [to_numeric] is the call with [errors='coerce']: a cell that cannot be
      read as a number becomes [NaN], and [isna] recognises [NaN];
    - [ts_le] is the calendar order of timestamps.
    Three facts about them are part of the interface: the comparison of
    cells is antisymmetric (a loaded column has one dtype, so two cells that
    compare equal both ways are the same value); [sort_values] returns the
    rows it was given, ascending in the [date] column, whatever it does with
    rows that tie; [to_datetime] returns one timestamp per cell. *)
Class Pandas : Type := {
  Cell : Type;
  Timestamp : Type;
  Float : Type;
  read_csv : string -> result (Table Cell);
  cell_le : Cell -> Cell -> bool;
  sort_values : list (Selected Cell) -> list (Selected Cell);
  to_datetime : list Cell -> result (list Timestamp);
  to_numeric : Cell -> Float;
  isna : Float -> bool;
  ts_le : Timestamp -> Timestamp -> bool;
  json_float : Float -> string;
  cell_le_antisym : forall a b, cell_le a b = true -> cell_le b a = true -> a = b;
  sort_values_perm : forall l, Permutation l (sort_values l);
  sort_values_sorted : forall l, StronglySorted (date_key_le cell_le) (sort_values l);
  to_datetime_length : forall l ts, to_datetime l = Ok ts -> List.length ts = List.length l
}.

(** The prophet package: the outcome of [from prophet import Prophet] and
    the calls the script makes on a model. *)
Class ProphetPkg (P : Pandas) : Type := {
  Model : Type;
  Future : Type;
  Forecast : Type;
  import_Prophet : result unit;
  Prophet_init : bool -> result Model;
  fit : Model -> list (Timestamp * Float) -> result Model;
  make_future_dataframe : Model -> nat -> string -> result Future;
  predict : Model -> Future -> result Forecast;
  iloc_last_yhat : Forecast -> result Float
}.

(** ** The process: streams, calls into prophet, and how it ends *)

Section Script.
Context {P : Pandas} {F : ProphetPkg P}.

Definition Series : Type := list (Timestamp * Float).
Definition Frame : Type := list (Prepared Cell Timestamp Float).

(** The calls into the forecasting package, in the order they happen. *)
Inductive call : Type :=
| CallImport
| CallProphet (daily_seasonality : bool)
| CallFit (series : Series)
| CallMakeFuture (periods : nat) (freq : string)
| CallPredict
| CallYhat.

Record World : Type := MkWorld {
  stdout : string;
  stderr : string;
  calls : list call
}.

Definition M (A : Type) : Type := World -> World * completion A.

Definition ret {A} (a : A) : M A := fun w => (w, Normal a).

Definition bind {A B} (m : M A) (k : A -> M B) : M B :=
  fun w => match m w with
           | (w', Normal a) => k a w'
           | (w', Raised e) => (w', Raised e)
           end.

Definition raise {A} (e : pyexn) : M A := fun w => (w, Raised e).

(** [try: body / except Exception as e: handler e]. *)
Definition try_except {A} (body : M A) (handler : string -> M A) : M A :=
  fun w => match body w with
           | (w', Raised (Exception msg)) => handler msg w'
           | r => r
           end.

Definition lift {A} (r : result A) : M A :=
  match r with
  | Ok a => ret a
  | Raise msg => raise (Exception msg)
  end.

Definition write_stdout (s : string) : M unit :=
  fun w => (MkWorld (stdout w ++ s) (stderr w) (calls w), Normal tt).

Definition write_stderr (s : string) : M unit :=
  fun w => (MkWorld (stdout w) (stderr w ++ s) (calls w), Normal tt).

Definition print (s : string) : M unit := write_stdout (s ++ nl).

Definition sys_exit {A} (code : Z) : M A := raise (SystemExit code).

(** A call into the forecasting package is recorded, then returns or
    raises. *)
Definition invoke {A} (c : call) (r : result A) : M A :=
  fun w => lift r (MkWorld (stdout w) (stderr w) (calls w ++ [c])).
End Script.

Declare Scope py_scope.
Delimit Scope py_scope with py.
Notation "x <- m ;; k" := (bind m (fun x => k))
  (at level 61, m at next level, right associativity) : py_scope.
Notation "m ;; k" := (bind m (fun _ => k))
  (at level 61, right associativity) : py_scope.

Local Open Scope py_scope.

(** ** The script *)

Section Main.
Context {P : Pandas} {F : ProphetPkg P}.

(** ['date' in df.columns]. *)
Definition has_column (name : string) (df : Table Cell) : bool :=
  existsb (String.eqb name) (columns df).

(** [len(df)]. *)
Definition len (df : Table Cell) : nat := List.length (rows df).

(** [json.dumps({"yhat": v})], [v] being [None] or a float. *)
Definition json_dumps (yhat : option Float) : string :=
  "{" ++ dq ++ "yhat" ++ dq ++ ": "
      ++ match yhat with
         | None => "null"
         | Some v => json_float v
         end
      ++ "}".

(** The rows of [df] restricted to the labels [date] and [rating]. *)
Definition select_date_rating (df : Table Cell) : list (Selected Cell) :=
  map (fun r : Row Cell => MkSelected (r "date") (r "rating")) (rows df).

(** [df[['date', 'rating']].copy()]: a [KeyError] when a label is not a
    column. *)
Definition getitem_date_rating (df : Table Cell) : result (list (Selected Cell)) :=
  if has_column "date" df && has_column "rating" df
  then Ok (select_date_rating df)
  else Raise "KeyError".

(** The two column assignments: the parsed dates are aligned with the
    rows they come from, and [y] is the coerced rating. *)
Definition assign_ds_y (df : list (Selected Cell)) (ts : list Timestamp) : Frame :=
  map (fun rt : Selected Cell * Timestamp =>
         MkPrepared (date (fst rt)) (rating (fst rt)) (snd rt)
                    (to_numeric (rating (fst rt))))
      (combine df ts).

(** [df.dropna(subset=['y'])]. *)
Definition dropna_y (df : Frame) : Frame :=
  filter (fun r => negb (isna (y r))) df.

(** [df[['ds', 'y']]]. *)
Definition getitem_ds_y (df : Frame) : Series :=
  map (fun r => (ds r, y r)) df.

(** Lines 27-31. *)
Definition prepare (df : Table Cell) : M Frame :=
  df <- lift (getitem_date_rating df) ;;
  let df := sort_values df in
  ts <- lift (to_datetime (map (@date Cell) df)) ;;
  let df := assign_ds_y df ts in
  ret (dropna_y df).

(** Lines 40-45, the body of the last [try]. *)
Definition fit_and_predict (df : Frame) : M unit :=
  m <- invoke (CallProphet true) (Prophet_init true) ;;
  m <- invoke (CallFit (getitem_ds_y df)) (fit m (getitem_ds_y df)) ;;
  future <- invoke (CallMakeFuture 1 "D") (make_future_dataframe m 1 "D") ;;
  forecast <- invoke CallPredict (predict m future) ;;
  yhat <- invoke CallYhat (iloc_last_yhat forecast) ;;
  print (json_dumps (Some yhat)).

(** Lines 33-48. *)
Definition forecast_stage (df : Frame) : M unit :=
  try_except (invoke CallImport import_Prophet)
    (fun e => write_stderr ("prophet-import-failed: " ++ e ++ nl) ;; sys_exit 4) ;;
  try_except (fit_and_predict df)
    (fun e => write_stderr ("prophet-fit-failed: " ++ e ++ nl) ;; sys_exit 5).

(** Lines 18-48: what [main] does with a loaded table. *)
Definition process (df : Table Cell) : M unit :=
  if negb (has_column "date" df) || negb (has_column "rating" df) then
    write_stderr ("csv-missing-columns" ++ nl) ;; sys_exit 3
  else if Nat.eqb (len df) 0 then
    print (json_dumps None)
  else
    df <- prepare df ;;
    forecast_stage df.

(** [main], from the parsed [args.csv] on. *)
Definition main (args_csv : string) : M unit :=
  df <- try_except (lift (read_csv args_csv))
          (fun e => write_stderr ("csv-read-failed: " ++ e ++ nl) ;; sys_exit 2) ;;
  process df.

(** How the process ends: [main] returned, [sys.exit] was called, or an
    exception reached the top level.  In the last case the interpreter
    prints a traceback and the status is 1; the traceback is not part of
    [o_stderr], which holds what the script itself wrote. *)
Inductive termination : Type :=
| Returned
| Exited (code : Z)
| Crashed (msg : string).

Definition exit_status (t : termination) : Z :=
  match t with
  | Returned => 0
  | Exited code => code
  | Crashed _ => 1
  end.

Record Outcome : Type := MkOutcome {
  o_stdout : string;
  o_stderr : string;
  o_calls : list call;
  o_end : termination
}.

Definition empty_world : World := MkWorld "" "" [].

Definition run (m : M unit) : Outcome :=
  match m empty_world with
  | (w, Normal _) => MkOutcome (stdout w) (stderr w) (calls w) Returned
  | (w, Raised (SystemExit code)) => MkOutcome (stdout w) (stderr w) (calls w) (Exited code)
  | (w, Raised (Exception msg)) => MkOutcome (stdout w) (stderr w) (calls w) (Crashed msg)
  end.

(** The outcome of the script on a path. *)
Definition forecast_py (args_csv : string) : Outcome := run (main args_csv).
End Main.

(** ** A reference implementation of the pandas interface

    Text columns as [read_csv] loads them (dtype [object]: a string, or
    [NaN] for an empty field), compared the way Python compares [str], code
    point by code point.  The parsers cover the date layouts [Y-M-D] and
    [M/D/Y] and decimal integers; they stand for pandas on the inputs used
    in this file. *)

Module Reference.

Definition RCell : Type := option string.
Definition RTimestamp : Type := option (Z * Z * Z).
Definition RFloat : Type := option Z.

(** Missing values sort last; strings compare as Python [str]. *)
Definition rcell_le (a b : RCell) : bool :=
  match a, b with
  | Some s, Some t => String.leb s t
  | _, None => true
  | None, Some _ => false
  end.

(** A stable insertion sort by the [date] column. *)
Fixpoint insert_by_date (x : Selected RCell) (l : list (Selected RCell))
  : list (Selected RCell) :=
  match l with
  | [] => [x]
  | h :: t => if rcell_le (date x) (date h) then x :: l
              else h :: insert_by_date x t
  end.

Definition rsort_values (l : list (Selected RCell)) : list (Selected RCell) :=
  fold_right insert_by_date [] l.

Definition digit (c : ascii) : option Z :=
  let n := Z.of_nat (nat_of_ascii c) in
  if (48 <=? n)%Z && (n <=? 57)%Z then Some (n - 48)%Z else None.

Fixpoint digits (acc : Z) (s : string) : option Z :=
  match s with
  | EmptyString => Some acc
  | String c s' => match digit c with
                   | Some d => digits (10 * acc + d)%Z s'
                   | None => None
                   end
  end.

Definition parse_nat (s : string) : option Z :=
  match s with
  | EmptyString => None
  | _ => digits 0 s
  end.

Definition parse_int (s : string) : option Z :=
  match s with
  | String "-"%char s' => option_map Z.opp (parse_nat s')
  | _ => parse_nat s
  end.

Fixpoint split_on (sep : ascii) (s : string) : list string :=
  match s with
  | EmptyString => [EmptyString]
  | String c s' =>
      if Ascii.eqb c sep then EmptyString :: split_on sep s'
      else match split_on sep s' with
           | [] => [String c EmptyString]
           | w :: ws => String c w :: ws
           end
  end.

Definition leap_year (yr : Z) : bool :=
  ((yr mod 4 =? 0) && negb (yr mod 100 =? 0) || (yr mod 400 =? 0))%Z.

Definition days_in_month (yr mo : Z) : Z :=
  if (mo =? 2)%Z then (if leap_year yr then 29 else 28)
  else if ((mo =? 4) || (mo =? 6) || (mo =? 9) || (mo =? 11))%Z then 30
  else 31.

Definition calendar_day (yr mo dy : option Z) : option (Z * Z * Z) :=
  match yr, mo, dy with
  | Some yr, Some mo, Some dy =>
      if ((1 <=? mo) && (mo <=? 12) && (1 <=? dy) && (dy <=? days_in_month yr mo))%Z
      then Some (yr, mo, dy) else None
  | _, _, _ => None
  end.

Definition parse_date (s : string) : option (Z * Z * Z) :=
  match split_on "/" s with
  | [mo; dy; yr] => calendar_day (parse_nat yr) (parse_nat mo) (parse_nat dy)
  | _ => match split_on "-" s with
         | [yr; mo; dy] => calendar_day (parse_nat yr) (parse_nat mo) (parse_nat dy)
         | _ => None
         end
  end.

(** [errors='raise']: the first cell that is not a date raises; a missing
    cell becomes [NaT]. *)
Fixpoint rto_datetime (col : list RCell) : result (list RTimestamp) :=
  match col with
  | [] => Ok []
  | None :: col' =>
      match rto_datetime col' with
      | Ok ts => Ok (None :: ts)
      | Raise msg => Raise msg
      end
  | Some s :: col' =>
      match parse_date s with
      | None => Raise ("Unknown datetime string format, unable to parse: " ++ s)
      | Some d =>
          match rto_datetime col' with
          | Ok ts => Ok (Some d :: ts)
          | Raise msg => Raise msg
          end
      end
  end.

(** [errors='coerce']: what is not a number becomes [NaN]. *)
Definition rto_numeric (c : RCell) : RFloat :=
  match c with
  | Some s => parse_int s
  | None => None
  end.

Definition risna (v : RFloat) : bool :=
  match v with
  | Some _ => false
  | None => true
  end.

(** Calendar order; [NaT] compares false with everything. *)
Definition rts_le (a b : RTimestamp) : bool :=
  match a, b with
  | Some (y1, m1, d1), Some (y2, m2, d2) =>
      ((y1 <? y2) || (y1 =? y2) && ((m1 <? m2) || (m1 =? m2) && (d1 <=? d2)))%Z
  | _, _ => false
  end.

Fixpoint string_of_digits (fuel : nat) (n : Z) (acc : string) : string :=
  match fuel with
  | O => acc
  | S fuel' =>
      let acc' := String (ascii_of_nat (Z.to_nat (48 + n mod 10))) acc in
      if (n <? 10)%Z then acc' else string_of_digits fuel' (n / 10)%Z acc'
  end.

(** [json.dumps] on a float with an integral value: [3.0], [-2.0],
    [NaN]. *)
Definition rjson_float (v : RFloat) : string :=
  match v with
  | None => "NaN"
  | Some n =>
      (if (n <? 0)%Z then "-" else "")
        ++ string_of_digits (S (Z.to_nat (Z.abs n))) (Z.abs n) ".0"
  end.

(** A row of a text table with the two columns [date] and [rating]. *)
Definition row (d r : RCell) : Row RCell :=
  fun label => if String.eqb label "date" then d
               else if String.eqb label "rating" then r
               else None.

End Reference.

(** ** The reference implementation meets the interface *)

Module ReferenceFacts.
Import Reference.

Lemma ascii_compare_trans_le (a b c : ascii) :
  Ascii.compare a b <> Gt -> Ascii.compare b c <> Gt -> Ascii.compare a c <> Gt.
Proof.
  unfold Ascii.compare. rewrite !N.compare_le_iff. apply N.le_trans.
Qed.

Lemma string_compare_refl (s : string) : String.compare s s = Eq.
Proof.
  induction s as [|c s IH]; simpl; [reflexivity|].
  unfold Ascii.compare. now rewrite N.compare_refl.
Qed.

Lemma string_leb_trans (s t u : string) :
  String.leb s t = true -> String.leb t u = true -> String.leb s u = true.
Proof.
  unfold String.leb. revert t u.
  induction s as [|a s IH]; intros [|b t] [|c u]; simpl; try congruence.
  unfold Ascii.compare.
  destruct (N.compare_spec (N_of_ascii a) (N_of_ascii b)) as [Hab|Hab|Hab];
    destruct (N.compare_spec (N_of_ascii b) (N_of_ascii c)) as [Hbc|Hbc|Hbc];
    try congruence.
  - rewrite Hab, Hbc, N.compare_refl. apply IH.
  - intros _ _. rewrite Hab. now apply N.compare_lt_iff in Hbc as ->.
  - intros _ _. rewrite <- Hbc. now apply N.compare_lt_iff in Hab as ->.
  - intros _ _.
    assert (H : (N_of_ascii a < N_of_ascii c)%N) by (eapply N.lt_trans; eauto).
    now apply N.compare_lt_iff in H as ->.
Qed.

Lemma rcell_le_total (a b : RCell) : rcell_le a b = true \/ rcell_le b a = true.
Proof.
  destruct a as [s|], b as [t|]; simpl; auto using String.leb_total.
Qed.

Lemma rcell_le_trans (a b c : RCell) :
  rcell_le a b = true -> rcell_le b c = true -> rcell_le a c = true.
Proof.
  destruct a as [s|], b as [t|], c as [u|]; simpl; try congruence.
  apply string_leb_trans.
Qed.

Lemma rcell_le_antisym (a b : RCell) :
  rcell_le a b = true -> rcell_le b a = true -> a = b.
Proof.
  destruct a as [s|], b as [t|]; simpl; try congruence.
  intros H1 H2. f_equal. now apply String.leb_antisym.
Qed.

Lemma insert_by_date_perm (x : Selected RCell) (l : list (Selected RCell)) :
  Permutation (x :: l) (insert_by_date x l).
Proof.
  induction l as [|h t IH]; simpl; [reflexivity|].
  destruct (rcell_le (date x) (date h)); [reflexivity|].
  rewrite perm_swap. now constructor.
Qed.

Lemma rsort_values_perm (l : list (Selected RCell)) :
  Permutation l (rsort_values l).
Proof.
  induction l as [|x l IH]; simpl; [constructor|].
  rewrite <- insert_by_date_perm. now constructor.
Qed.

Lemma insert_by_date_sorted (x : Selected RCell) (l : list (Selected RCell)) :
  StronglySorted (date_key_le rcell_le) l ->
  StronglySorted (date_key_le rcell_le) (insert_by_date x l).
Proof.
  induction 1 as [|h t Hs IH Hh]; simpl.
  - repeat constructor.
  - destruct (rcell_le (date x) (date h)) eqn:E.
    + constructor; [now constructor|].
      constructor; [exact E|].
      eapply Forall_impl; [|exact Hh].
      intros z Hz. unfold date_key_le in *. eapply rcell_le_trans; eauto.
    + constructor; [exact IH|].
      rewrite <- insert_by_date_perm. constructor; [|exact Hh].
      unfold date_key_le.
      destruct (rcell_le_total (date x) (date h)); congruence.
Qed.

Lemma rsort_values_sorted (l : list (Selected RCell)) :
  StronglySorted (date_key_le rcell_le) (rsort_values l).
Proof.
  induction l as [|x l IH]; simpl; [constructor|].
  now apply insert_by_date_sorted.
Qed.

Lemma rto_datetime_length (l : list RCell) :
  forall ts, rto_datetime l = Ok ts -> List.length ts = List.length l.
Proof.
  induction l as [|[s|] l IH]; simpl; intros ts H.
  - now inversion H.
  - destruct (parse_date s); [|discriminate].
    destruct (rto_datetime l) as [ts'|]; [|discriminate].
    inversion H; subst. simpl. f_equal. now apply IH.
  - destruct (rto_datetime l) as [ts'|]; [|discriminate].
    inversion H; subst. simpl. f_equal. now apply IH.
Qed.

End ReferenceFacts.

(** The reference pandas over a file system [fs], which says what
    [read_csv] finds at a path. *)
Definition reference_pandas (fs : string -> result (Table Reference.RCell)) : Pandas :=
  {| Cell := Reference.RCell;
     Timestamp := Reference.RTimestamp;
     Float := Reference.RFloat;
     read_csv := fs;
     cell_le := Reference.rcell_le;
     sort_values := Reference.rsort_values;
     to_datetime := Reference.rto_datetime;
     to_numeric := Reference.rto_numeric;
     isna := Reference.risna;
     ts_le := Reference.rts_le;
     json_float := Reference.rjson_float;
     cell_le_antisym := ReferenceFacts.rcell_le_antisym;
     sort_values_perm := ReferenceFacts.rsort_values_perm;
     sort_values_sorted := ReferenceFacts.rsort_values_sorted;
     to_datetime_length := ReferenceFacts.rto_datetime_length |}.

(** A stand-in for the prophet package, to run the script on concrete
    tables: it refuses a history of fewer than two rows, as the package
    does, and otherwise predicts the last observed value again.
    [imported] is the outcome of the import. *)
Definition last_value_prophet (P : Pandas) (imported : result unit) : ProphetPkg P :=
  {| Model := list (Timestamp * Float);
     Future := nat;
     Forecast := list Float;
     import_Prophet := imported;
     Prophet_init := fun _ => Ok [];
     fit := fun _ history =>
              if (List.length history <? 2)%nat
              then Raise "Dataframe has less than 2 non-NaN rows."
              else Ok history;
     make_future_dataframe := fun _ periods _ => Ok periods;
     predict := fun history periods =>
                  Ok (map snd history
                        ++ match rev history with
                           | [] => []
                           | (_, v) :: _ => repeat v periods
                           end)%list;
     iloc_last_yhat := fun forecast =>
                         match rev forecast with
                         | [] => Raise "single positional indexer is out-of-bounds"
                         | v :: _ => Ok v
                         end |}.

(** ** Concrete inputs *)

Module Samples.
Import Reference.

Definition no_module : string := "No module named 'prophet'".

(** Header only. *)
Definition empty_csv : Table RCell := MkTable ["date"; "rating"] [].

(** No [rating] column. *)
Definition no_rating_csv : Table RCell :=
  MkTable ["date"; "score"] [fun label => if String.eqb label "date" then Some "2024-01-01"
                                          else if String.eqb label "score" then Some "3"
                                          else None].

Definition ratings_csv : Table RCell :=
  MkTable ["date"; "rating"]
          [row (Some "2024-01-03") (Some "5");
           row (Some "2024-01-01") (Some "3");
           row (Some "2024-01-02") (Some "oops");
           row (Some "2024-01-04") None].

Definition all_invalid_csv : Table RCell :=
  MkTable ["date"; "rating"]
          [row (Some "2024-01-02") (Some "bad");
           row (Some "2024-01-01") (Some "worse")].

Definition bad_date_csv : Table RCell :=
  MkTable ["date"; "rating"] [row (Some "not-a-date") (Some "3")].

(** Month/day/year dates: the text order is not the calendar order. *)
Definition us_dates_csv : Table RCell :=
  MkTable ["date"; "rating"]
          [row (Some "1/9/2024") (Some "3");
           row (Some "1/10/2024") (Some "4")].

(** Two ratings on one day, and the same rows the other way round. *)
Definition same_day_csv : Table RCell :=
  MkTable ["date"; "rating"]
          [row (Some "2024-01-01") (Some "1");
           row (Some "2024-01-01") (Some "2")].

Definition same_day_swapped_csv : Table RCell :=
  MkTable ["date"; "rating"]
          [row (Some "2024-01-01") (Some "2");
           row (Some "2024-01-01") (Some "1")].

(** The rows of [ratings_csv], last to first. *)
Definition ratings_shuffled_csv : Table RCell :=
  MkTable ["date"; "rating"]
          [row (Some "2024-01-04") None;
           row (Some "2024-01-02") (Some "oops");
           row (Some "2024-01-01") (Some "3");
           row (Some "2024-01-03") (Some "5")].

Definition files (path : string) : result (Table RCell) :=
  if String.eqb path "empty.csv" then Ok empty_csv
  else if String.eqb path "no_rating.csv" then Ok no_rating_csv
  else if String.eqb path "ratings.csv" then Ok ratings_csv
  else if String.eqb path "ratings_shuffled.csv" then Ok ratings_shuffled_csv
  else if String.eqb path "all_invalid.csv" then Ok all_invalid_csv
  else if String.eqb path "bad_date.csv" then Ok bad_date_csv
  else if String.eqb path "us_dates.csv" then Ok us_dates_csv
  else if String.eqb path "same_day.csv" then Ok same_day_csv
  else if String.eqb path "same_day_swapped.csv" then Ok same_day_swapped_csv
  else Raise ("[Errno 2] No such file or directory: '" ++ path ++ "'").

Definition pandas : Pandas := reference_pandas files.
Definition prophet : ProphetPkg pandas := last_value_prophet pandas (Ok tt).
Definition no_prophet : ProphetPkg pandas := last_value_prophet pandas (Raise no_module).

(** The script with prophet installed, and without. *)
Definition script (path : string) : Outcome :=
  forecast_py (P := pandas) (F := prophet) path.
Definition script_without_prophet (path : string) : Outcome :=
  forecast_py (P := pandas) (F := no_prophet) path.
End Samples.

(** ** How the script runs *)

(** The bytes of [{"yhat": null}] and the line feed after them. *)
Definition null_line_bytes : list nat :=
  [123; 34; 121; 104; 97; 116; 34; 58; 32; 110; 117; 108; 108; 125; 10].

Definition bytes (s : string) : list nat :=
  map nat_of_ascii (list_ascii_of_string s).

Section Running.
Context {P : Pandas} {F : ProphetPkg P}.

(** What the process leaves behind when the table has no rows. *)
Definition null_result : Outcome :=
  MkOutcome ("{" ++ dq ++ "yhat" ++ dq ++ ": null}" ++ nl) "" [] Returned.

(** What it leaves behind when a column is missing. *)
Definition missing_columns_result : Outcome :=
  MkOutcome "" ("csv-missing-columns" ++ nl) [] (Exited 3).

Definition both_columns (df : Table Cell) : Prop :=
  has_column "date" df = true /\ has_column "rating" df = true.

(** The column [to_datetime] is called on. *)
Definition sorted_date_column (df : Table Cell) : list Cell :=
  map (@date Cell) (sort_values (select_date_rating df)).

(** The frame [prepare] builds once the dates are parsed. *)
Definition prepared_frame (df : Table Cell) (ts : list Timestamp) : Frame :=
  dropna_y (assign_ds_y (sort_values (select_date_rating df)) ts).

Lemma main_read_failed (path msg : string) :
  read_csv path = Raise msg ->
  forecast_py path
  = MkOutcome "" ("csv-read-failed: " ++ msg ++ nl) [] (Exited 2).
Proof.
  intros H. unfold forecast_py, run, main, bind, try_except.
  rewrite H. reflexivity.
Qed.

Lemma main_loaded (path : string) (df : Table Cell) :
  read_csv path = Ok df -> forecast_py path = run (process df).
Proof.
  intros H. unfold forecast_py, run, main, bind, try_except.
  rewrite H. reflexivity.
Qed.

Lemma process_missing_columns (df : Table Cell) :
  has_column "date" df = false \/ has_column "rating" df = false ->
  run (process df) = missing_columns_result.
Proof.
  intros H. unfold process.
  replace (negb (has_column "date" df) || negb (has_column "rating" df))
    with true by (destruct H as [-> | ->]; simpl; now rewrite ?orb_true_r).
  reflexivity.
Qed.

Lemma process_no_rows (df : Table Cell) :
  both_columns df -> rows df = [] -> run (process df) = null_result.
Proof.
  intros [Hd Hr] Hrows. unfold process, len. rewrite Hd, Hr, Hrows. reflexivity.
Qed.

Lemma process_rows (df : Table Cell) :
  both_columns df -> rows df <> [] ->
  process df = (df' <- prepare df ;; forecast_stage df').
Proof.
  intros [Hd Hr] Hrows. unfold process, len. rewrite Hd, Hr.
  destruct (rows df); [contradiction | reflexivity].
Qed.

Lemma prepare_parsed (df : Table Cell) (ts : list Timestamp) (w : World) :
  both_columns df -> to_datetime (sorted_date_column df) = Ok ts ->
  prepare df w = (w, Normal (prepared_frame df ts)).
Proof.
  intros [Hd Hr] Hts. unfold prepare, getitem_date_rating, bind.
  rewrite Hd, Hr. simpl. fold (sorted_date_column df). rewrite Hts. reflexivity.
Qed.

Lemma prepare_raises (df : Table Cell) (msg : string) (w : World) :
  both_columns df -> to_datetime (sorted_date_column df) = Raise msg ->
  prepare df w = (w, Raised (Exception msg)).
Proof.
  intros [Hd Hr] Hts. unfold prepare, getitem_date_rating, bind.
  rewrite Hd, Hr. simpl. fold (sorted_date_column df). rewrite Hts. reflexivity.
Qed.

Lemma process_parsed (df : Table Cell) (ts : list Timestamp) :
  both_columns df -> rows df <> [] ->
  to_datetime (sorted_date_column df) = Ok ts ->
  run (process df) = run (forecast_stage (prepared_frame df ts)).
Proof.
  intros Hc Hrows Hts. rewrite (process_rows Hc Hrows).
  unfold run, bind at 1. now rewrite (prepare_parsed _ Hc Hts).
Qed.

Lemma process_unparsed (df : Table Cell) (msg : string) :
  both_columns df -> rows df <> [] ->
  to_datetime (sorted_date_column df) = Raise msg ->
  run (process df) = MkOutcome "" "" [] (Crashed msg).
Proof.
  intros Hc Hrows Hts. rewrite (process_rows Hc Hrows).
  unfold run, bind. now rewrite (prepare_raises _ Hc Hts).
Qed.

(** *** Reading and validating *)

(** C7: when [read_csv] raises on the path (no such file, unreadable, not
    parseable), the process writes [csv-read-failed: <cause>] to stderr,
    nothing to stdout, calls nothing else and exits with status 2. *)
Theorem read_failure_exits_2 (path msg : string) :
  read_csv path = Raise msg ->
  o_stderr (forecast_py path) = "csv-read-failed: " ++ msg ++ nl
  /\ String.prefix "csv-read-failed:" (o_stderr (forecast_py path)) = true
  /\ o_stdout (forecast_py path) = ""
  /\ o_calls (forecast_py path) = []
  /\ o_end (forecast_py path) = Exited 2
  /\ exit_status (o_end (forecast_py path)) = 2%Z.
Proof.
  intros H. rewrite (main_read_failed _ H). simpl. repeat split.
Qed.

(** *** The forecasting stage *)

(** The body of the last [try] raises [msg], after the calls [cs]. *)
Inductive try_raises (df : Frame) (msg : string) : list call -> Prop :=
| raises_init :
    Prophet_init true = Raise msg ->
    try_raises df msg [CallProphet true]
| raises_fit m :
    Prophet_init true = Ok m ->
    fit m (getitem_ds_y df) = Raise msg ->
    try_raises df msg [CallProphet true; CallFit (getitem_ds_y df)]
| raises_future m m' :
    Prophet_init true = Ok m ->
    fit m (getitem_ds_y df) = Ok m' ->
    make_future_dataframe m' 1 "D" = Raise msg ->
    try_raises df msg [CallProphet true; CallFit (getitem_ds_y df);
                       CallMakeFuture 1 "D"]
| raises_predict m m' future :
    Prophet_init true = Ok m ->
    fit m (getitem_ds_y df) = Ok m' ->
    make_future_dataframe m' 1 "D" = Ok future ->
    predict m' future = Raise msg ->
    try_raises df msg [CallProphet true; CallFit (getitem_ds_y df);
                       CallMakeFuture 1 "D"; CallPredict]
| raises_yhat m m' future forecast :
    Prophet_init true = Ok m ->
    fit m (getitem_ds_y df) = Ok m' ->
    make_future_dataframe m' 1 "D" = Ok future ->
    predict m' future = Ok forecast ->
    iloc_last_yhat forecast = Raise msg ->
    try_raises df msg [CallProphet true; CallFit (getitem_ds_y df);
                       CallMakeFuture 1 "D"; CallPredict; CallYhat].

(** Every call of the body returns, and the prediction is [yhat]. *)
Inductive try_returns (df : Frame) (yhat : Float) : Prop :=
| returns_yhat m m' future forecast :
    Prophet_init true = Ok m ->
    fit m (getitem_ds_y df) = Ok m' ->
    make_future_dataframe m' 1 "D" = Ok future ->
    predict m' future = Ok forecast ->
    iloc_last_yhat forecast = Ok yhat ->
    try_returns df yhat.

Definition all_calls (df : Frame) : list call :=
  [CallImport; CallProphet true; CallFit (getitem_ds_y df);
   CallMakeFuture 1 "D"; CallPredict; CallYhat].

Definition import_failed_result (msg : string) : Outcome :=
  MkOutcome "" ("prophet-import-failed: " ++ msg ++ nl) [CallImport] (Exited 4).

Definition fit_failed_result (msg : string) (cs : list call) : Outcome :=
  MkOutcome "" ("prophet-fit-failed: " ++ msg ++ nl) (CallImport :: cs) (Exited 5).

Definition success_result (df : Frame) (yhat : Float) : Outcome :=
  MkOutcome (json_dumps (Some yhat) ++ nl) "" (all_calls df) Returned.

Ltac run_stage :=
  unfold run, forecast_stage, fit_and_predict, bind, try_except, invoke, print,
    write_stdout; simpl.

Lemma forecast_import_failed (df : Frame) (msg : string) :
  import_Prophet = Raise msg ->
  run (forecast_stage df) = import_failed_result msg.
Proof. intros H. run_stage. rewrite H. reflexivity. Qed.

Lemma forecast_try_raises (df : Frame) (msg : string) (cs : list call) :
  import_Prophet = Ok tt -> try_raises df msg cs ->
  run (forecast_stage df) = fit_failed_result msg cs.
Proof.
  intros Hi H. run_stage. rewrite Hi. simpl.
  destruct H;
    repeat match goal with
           | E : _ = Ok _ |- _ => rewrite E; clear E; simpl
           | E : _ = Raise _ |- _ => rewrite E; clear E; simpl
           end; reflexivity.
Qed.

Lemma forecast_try_returns (df : Frame) (yhat : Float) :
  import_Prophet = Ok tt -> try_returns df yhat ->
  run (forecast_stage df) = success_result df yhat.
Proof.
  intros Hi [m m' future forecast H1 H2 H3 H4 H5]. run_stage.
  rewrite Hi. simpl. rewrite H1. simpl. rewrite H2. simpl. rewrite H3. simpl.
  rewrite H4. simpl. rewrite H5. reflexivity.
Qed.

(** The body of the [try] either raises or returns. *)
Lemma try_raises_or_returns (df : Frame) :
  (exists msg cs, try_raises df msg cs) \/ (exists yhat, try_returns df yhat).
Proof.
  destruct (Prophet_init true) as [m|msg] eqn:H1;
    [|left; eexists _, _; apply raises_init; eassumption].
  destruct (fit m (getitem_ds_y df)) as [m'|msg] eqn:H2;
    [|left; eexists _, _; eapply raises_fit; eassumption].
  destruct (make_future_dataframe m' 1 "D") as [future|msg] eqn:H3;
    [|left; eexists _, _; eapply raises_future; eassumption].
  destruct (predict m' future) as [forecast|msg] eqn:H4;
    [|left; eexists _, _; eapply raises_predict; eassumption].
  destruct (iloc_last_yhat forecast) as [yhat|msg] eqn:H5;
    [|left; eexists _, _; eapply raises_yhat; eassumption].
  right. exists yhat. eapply returns_yhat; eassumption.
Qed.

Lemma forecast_stage_cases (df : Frame) :
  (exists msg, run (forecast_stage df) = import_failed_result msg)
  \/ (exists msg cs, run (forecast_stage df) = fit_failed_result msg cs)
  \/ (exists yhat, run (forecast_stage df) = success_result df yhat).
Proof.
  destruct import_Prophet as [[]|msg] eqn:Hi.
  - destruct (try_raises_or_returns df) as [(msg & cs & H)|(yhat & H)].
    + right; left. exists msg, cs. now apply forecast_try_raises.
    + right; right. exists yhat. now apply forecast_try_returns.
  - left. exists msg. now apply forecast_import_failed.
Qed.

(** With both columns there, the process ends in the null result, in an
    uncaught exception of the preparation, or in the forecasting stage. *)
Lemma process_cases (df : Table Cell) :
  both_columns df ->
  run (process df) = null_result
  \/ (exists msg, run (process df) = MkOutcome "" "" [] (Crashed msg))
  \/ (exists frame, run (process df) = run (forecast_stage frame)).
Proof.
  intros Hc. destruct (rows df) as [|r rs] eqn:Hrows.
  - left. now apply process_no_rows.
  - assert (Hne : rows df <> []) by (rewrite Hrows; discriminate).
    destruct (to_datetime (sorted_date_column df)) as [ts|msg] eqn:Hts.
    + right; right. eexists. now apply process_parsed; eauto.
    + right; left. exists msg. now apply process_unparsed.
Qed.
End Running.

(** ** Lists: sorted permutations and filters *)

Section ListFacts.
Variables A K : Type.
Variable key : A -> K.
Variable le : K -> K -> bool.

Definition key_le (a b : A) : Prop := le (key a) (key b) = true.

Hypothesis le_antisym : forall a b, le a b = true -> le b a = true -> a = b.

(** A list whose keys are pairwise distinct has one sorted arrangement. *)
Lemma sorted_perm_unique (l1 : list A) :
  forall l2,
    StronglySorted key_le l1 -> StronglySorted key_le l2 ->
    Permutation l1 l2 -> NoDup (map key l1) -> l1 = l2.
Proof.
  induction l1 as [|a l1 IH]; intros l2 S1 S2 Hp Hnd.
  - now apply Permutation_nil in Hp.
  - destruct l2 as [|b l2];
      [apply Permutation_sym in Hp; now apply Permutation_nil in Hp|].
    apply StronglySorted_inv in S1 as [S1 Ha].
    apply StronglySorted_inv in S2 as [S2 Hb].
    simpl in Hnd. apply NoDup_cons_iff in Hnd as [Hnotin Hnd].
    assert (Hab : a = b).
    { assert (Ia : In a (b :: l2))
        by (eapply Permutation_in; [exact Hp | now left]).
      assert (Ib : In b (a :: l1))
        by (eapply Permutation_in; [apply Permutation_sym; exact Hp | now left]).
      destruct Ia as [->|Ia]; [reflexivity|].
      destruct Ib as [->|Ib]; [reflexivity|].
      exfalso. apply Hnotin.
      rewrite Forall_forall in Ha, Hb.
      rewrite (le_antisym (Ha _ Ib) (Hb _ Ia)).
      now apply in_map. }
    subst b. f_equal. apply IH; auto.
    now apply Permutation_cons_inv in Hp.
Qed.

Lemma Permutation_filter (p : A -> bool) (l1 l2 : list A) :
  Permutation l1 l2 -> Permutation (filter p l1) (filter p l2).
Proof.
  induction 1 as [|x l l' _ IH|x x' l|l l' l'' _ IH1 _ IH2]; simpl.
  - constructor.
  - destruct (p x); [now constructor | exact IH].
  - destruct (p x), (p x'); try reflexivity. apply perm_swap.
  - now rewrite IH1.
Qed.

Lemma filter_none (p : A -> bool) (l : list A) :
  (forall x, In x l -> p x = false) -> filter p l = [].
Proof.
  induction l as [|x l IH]; simpl; intros H; [reflexivity|].
  rewrite (H x) by now left. apply IH. intros z Hz. apply H. now right.
Qed.

Lemma StronglySorted_filter (R : A -> A -> Prop) (p : A -> bool) (l : list A) :
  StronglySorted R l -> StronglySorted R (filter p l).
Proof.
  induction 1 as [|a l _ IH Ha]; simpl; [constructor|].
  destruct (p a); [|exact IH].
  constructor; [exact IH|].
  rewrite Forall_forall in *. intros z Hz. apply filter_In in Hz as [Hz _]. auto.
Qed.
End ListFacts.

(** ** The prepared frame *)

Section PreparedFrame.
Context {P : Pandas} {F : ProphetPkg P}.

(** The order of the loaded [date] values, on the prepared frame. *)
Definition raw_date_le (a b : Prepared Cell Timestamp Float) : Prop :=
  cell_le (p_date a) (p_date b) = true.

(** The calendar order of the parsed dates. *)
Definition calendar_le (a b : Prepared Cell Timestamp Float) : Prop :=
  ts_le (ds a) (ds b) = true.

(** A rating that survives [dropna]. *)
Definition numeric (c : Cell) : bool := negb (isna (to_numeric c)).

Lemma assign_ds_y_sorted (l : list (Selected Cell)) :
  forall ts, StronglySorted (date_key_le cell_le) l ->
             StronglySorted raw_date_le (assign_ds_y l ts).
Proof.
  unfold assign_ds_y.
  induction l as [|a l IH]; intros ts S; [constructor|].
  destruct ts as [|t ts]; [constructor|].
  apply StronglySorted_inv in S as [S Ha]. simpl.
  constructor; [now apply IH|].
  rewrite Forall_forall in *. intros z Hz.
  apply in_map_iff in Hz as ([b t'] & Heq & Hin).
  apply in_combine_l in Hin. subst z. unfold raw_date_le. simpl. now apply Ha.
Qed.

Lemma assign_ds_y_ratings (l : list (Selected Cell)) :
  forall ts, List.length ts = List.length l ->
             map (@p_rating _ _ _) (dropna_y (assign_ds_y l ts))
             = filter numeric (map (@rating Cell) l).
Proof.
  unfold dropna_y, assign_ds_y, numeric.
  induction l as [|a l IH]; intros [|t ts] Hlen; simpl in *; try discriminate;
    [reflexivity|].
  destruct (isna (to_numeric (rating a))); simpl; rewrite IH by lia; reflexivity.
Qed.

Lemma assign_ds_y_In (l : list (Selected Cell)) (ts : list Timestamp) r :
  In r (assign_ds_y l ts) ->
  y r = to_numeric (p_rating r)
  /\ In (MkSelected (p_date r) (p_rating r)) l.
Proof.
  unfold assign_ds_y. intros Hin.
  apply in_map_iff in Hin as ([[d c] t] & Heq & Hin).
  apply in_combine_l in Hin. subst r. simpl. auto.
Qed.

Lemma prepared_frame_sorted (df : Table Cell) (ts : list Timestamp) :
  StronglySorted raw_date_le (prepared_frame df ts).
Proof.
  unfold prepared_frame, dropna_y. apply StronglySorted_filter.
  apply assign_ds_y_sorted, sort_values_sorted.
Qed.

Lemma prepared_frame_numeric (df : Table Cell) (ts : list Timestamp) :
  Forall (fun r => y r = to_numeric (p_rating r) /\ isna (y r) = false)
         (prepared_frame df ts).
Proof.
  apply Forall_forall. intros r Hr. unfold prepared_frame, dropna_y in Hr.
  apply filter_In in Hr as [Hr Hy]. apply assign_ds_y_In in Hr as [Hr _].
  split; [exact Hr|]. now apply negb_true_iff in Hy.
Qed.

Lemma prepared_frame_ratings (df : Table Cell) (ts : list Timestamp) :
  to_datetime (sorted_date_column df) = Ok ts ->
  Permutation (map (@p_rating _ _ _) (prepared_frame df ts))
              (filter numeric (map (fun r : Row Cell => r "rating") (rows df))).
Proof.
  intros Hts. unfold prepared_frame. rewrite assign_ds_y_ratings.
  - apply Permutation_filter.
    rewrite <- (sort_values_perm (select_date_rating df)).
    unfold select_date_rating. now rewrite map_map.
  - apply to_datetime_length in Hts. rewrite Hts.
    unfold sorted_date_column. now rewrite length_map.
Qed.

Lemma prepared_frame_all_invalid (df : Table Cell) (ts : list Timestamp) :
  (forall r, In r (rows df) -> isna (to_numeric (r "rating")) = true) ->
  prepared_frame df ts = [].
Proof.
  intros Hall. unfold prepared_frame, dropna_y. apply filter_none.
  intros r Hr. apply assign_ds_y_In in Hr as [Hy Hin]. rewrite Hy.
  apply (Permutation_in _ (Permutation_sym (sort_values_perm _))) in Hin.
  unfold select_date_rating in Hin.
  apply in_map_iff in Hin as (r0 & Heq & Hin0).
  injection Heq as Hd Hr0. rewrite <- Hr0, (Hall _ Hin0). reflexivity.
Qed.

(** What [prepare] returned, it built from parsed dates. *)
Lemma prepare_inv (df : Table Cell) (w w' : World) (frame : Frame) :
  prepare df w = (w', Normal frame) ->
  exists ts, to_datetime (sorted_date_column df) = Ok ts
             /\ frame = prepared_frame df ts.
Proof.
  unfold prepare, getitem_date_rating, bind.
  destruct (has_column "date" df && has_column "rating" df); simpl;
    [|discriminate].
  fold (sorted_date_column df).
  destruct (to_datetime (sorted_date_column df)) as [ts|msg]; simpl;
    [|discriminate].
  intros H. inversion H. now exists ts.
Qed.

(** Tables with the same columns and the same rows in another order, the
    dates pairwise distinct, sort to the same frame. *)
Lemma sort_values_shuffled (df1 df2 : Table Cell) :
  Permutation (rows df1) (rows df2) ->
  NoDup (map (fun r : Row Cell => r "date") (rows df1)) ->
  sort_values (select_date_rating df1) = sort_values (select_date_rating df2).
Proof.
  intros Hp Hnd.
  assert (Hsel : Permutation (select_date_rating df1) (select_date_rating df2))
    by now apply Permutation_map.
  apply sorted_perm_unique with (key := @date Cell) (le := cell_le).
  - apply cell_le_antisym.
  - apply sort_values_sorted.
  - apply sort_values_sorted.
  - now rewrite <- !sort_values_perm.
  - apply (Permutation_NoDup (l := map (@date Cell) (select_date_rating df1))).
    + apply Permutation_map, sort_values_perm.
    + unfold select_date_rating. now rewrite map_map.
Qed.

Lemma prepare_shuffled (df1 df2 : Table Cell) (w : World) :
  columns df1 = columns df2 ->
  sort_values (select_date_rating df1) = sort_values (select_date_rating df2) ->
  prepare df1 w = prepare df2 w.
Proof.
  intros Hc Hs. unfold prepare, getitem_date_rating, has_column, bind.
  rewrite Hc.
  destruct (existsb (String.eqb "date") (columns df2)
            && existsb (String.eqb "rating") (columns df2)); simpl;
    [|reflexivity].
  now rewrite Hs.
Qed.

Lemma process_shuffled (df1 df2 : Table Cell) (w : World) :
  columns df1 = columns df2 ->
  Permutation (rows df1) (rows df2) ->
  sort_values (select_date_rating df1) = sort_values (select_date_rating df2) ->
  process df1 w = process df2 w.
Proof.
  intros Hc Hp Hs. unfold process, len, has_column.
  rewrite Hc, (Permutation_length Hp).
  destruct (negb _ || negb _); [reflexivity|].
  destruct (Nat.eqb _ 0); [reflexivity|].
  unfold bind. now rewrite (prepare_shuffled df1 df2 w Hc Hs).
Qed.
End PreparedFrame.

(** ** The properties of the script *)

Section Properties.
Context {P : Pandas} {F : ProphetPkg P}.

(** The forecasting stage starts with the import. *)
Lemma forecast_stage_imports (df : Frame) :
  exists cs, o_calls (run (forecast_stage df)) = CallImport :: cs.
Proof.
  destruct (forecast_stage_cases df)
    as [(msg & ->) | [(msg & cs & ->) | (yhat & ->)]];
    unfold import_failed_result, fit_failed_result, success_result, all_calls;
    simpl; eauto.
Qed.

(** C6: a loaded table that lacks the [date] or the [rating] column makes
    the process write the one line [csv-missing-columns] to stderr and
    exit with status 3, before anything else happens; with both columns
    there the process never ends that way. *)
Theorem missing_column_exits_3 (path : string) (df : Table Cell) :
  read_csv path = Ok df ->
  (has_column "date" df = false \/ has_column "rating" df = false ->
     forecast_py path = missing_columns_result
     /\ o_stderr (forecast_py path) = "csv-missing-columns" ++ nl
     /\ o_stdout (forecast_py path) = ""
     /\ exit_status (o_end (forecast_py path)) = 3%Z)
  /\ (both_columns df ->
        exit_status (o_end (forecast_py path)) <> 3%Z
        /\ o_stderr (forecast_py path) <> "csv-missing-columns" ++ nl).
Proof.
  intros Hread. rewrite (main_loaded _ Hread). split.
  - intros H. rewrite (process_missing_columns _ H). repeat split.
  - intros Hc.
    destruct (process_cases Hc) as [-> | [(msg & ->) | (frame & ->)]];
      [split; simpl; discriminate .. |].
    destruct (forecast_stage_cases frame)
      as [(msg & ->) | [(msg & cs & ->) | (yhat & ->)]];
      split; simpl; discriminate.
Qed.

(** C5: a table with both columns and no data row makes the process print
    exactly [{"yhat": null}] and a line feed on stdout, nothing on stderr,
    and return (status 0), with no call into the forecasting package, not
    even its import. *)
Theorem empty_table_prints_null (path : string) (df : Table Cell) :
  read_csv path = Ok df -> both_columns df -> len df = 0 ->
  forecast_py path = null_result
  /\ bytes (o_stdout (forecast_py path)) = null_line_bytes
  /\ o_stderr (forecast_py path) = ""
  /\ o_calls (forecast_py path) = []
  /\ exit_status (o_end (forecast_py path)) = 0%Z.
Proof.
  intros Hread Hc Hlen. apply length_zero_iff_nil in Hlen.
  rewrite (main_loaded _ Hread), (process_no_rows Hc Hlen). repeat split.
Qed.

(** C10: when the forecasting package cannot be imported, a table with
    both columns and no data row still gives the null result and status
    0: the import belongs to the forecasting stage, which such a table
    never enters, and which would exit with status 4 for any frame. *)
Theorem empty_table_needs_no_prophet (path : string) (df : Table Cell) (msg : string) :
  import_Prophet = Raise msg ->
  read_csv path = Ok df -> both_columns df -> len df = 0 ->
  forecast_py path = null_result
  /\ ~ In CallImport (o_calls (forecast_py path))
  /\ exit_status (o_end (forecast_py path)) = 0%Z
  /\ forall frame, exit_status (o_end (run (forecast_stage frame))) = 4%Z.
Proof.
  intros Hi Hread Hc Hlen. apply length_zero_iff_nil in Hlen.
  rewrite (main_loaded _ Hread), (process_no_rows Hc Hlen).
  repeat split; [intros [] |].
  intros frame. now rewrite (forecast_import_failed frame Hi).
Qed.

(** C8: in the forecasting stage, a failed import ends the process with
    [prophet-import-failed: <cause>] and status 4; with the package
    imported, an exception of the constructor, of [fit], of
    [make_future_dataframe], of [predict] or of the extraction of [yhat]
    is caught and ends it with the one line [prophet-fit-failed: <cause>]
    and status 5; when every call returns, the prediction is printed and
    the status is 0.  No other ending exists. *)
Theorem forecast_failures_are_reported (df : Frame) :
  (forall msg, import_Prophet = Raise msg ->
     run (forecast_stage df) = import_failed_result msg
     /\ exit_status (o_end (run (forecast_stage df))) = 4%Z)
  /\ (forall msg cs, import_Prophet = Ok tt -> try_raises df msg cs ->
        run (forecast_stage df) = fit_failed_result msg cs
        /\ o_stderr (run (forecast_stage df)) = "prophet-fit-failed: " ++ msg ++ nl
        /\ o_stdout (run (forecast_stage df)) = ""
        /\ exit_status (o_end (run (forecast_stage df))) = 5%Z)
  /\ (forall yhat, import_Prophet = Ok tt -> try_returns df yhat ->
        run (forecast_stage df) = success_result df yhat
        /\ o_stdout (run (forecast_stage df)) = json_dumps (Some yhat) ++ nl
        /\ o_stderr (run (forecast_stage df)) = ""
        /\ exit_status (o_end (run (forecast_stage df))) = 0%Z)
  /\ ((exists msg, import_Prophet = Raise msg)
      \/ (import_Prophet = Ok tt /\ exists msg cs, try_raises df msg cs)
      \/ (import_Prophet = Ok tt /\ exists yhat, try_returns df yhat)).
Proof.
  split; [|split; [|split]].
  - intros msg Hi. rewrite (forecast_import_failed df Hi). now split.
  - intros msg cs Hi H. rewrite (forecast_try_raises Hi H). now repeat split.
  - intros yhat Hi H. rewrite (forecast_try_returns Hi H). now repeat split.
  - destruct import_Prophet as [[]|msg].
    + destruct (try_raises_or_returns df) as [H|H]; auto.
    + left. now exists msg.
Qed.

(** Once line 29 has parsed the dates: on a table with both columns and
    at least one row, the preparation returns without raising, the process
    goes on into the forecasting stage with the prepared frame, every row
    of that frame carries the coerced rating and it is not [NaN], and the
    ratings that reach the forecaster are exactly the loaded ratings that
    coerce to a number: the others are dropped. *)
Theorem invalid_ratings_are_dropped
    (path : string) (df : Table Cell) (ts : list Timestamp) :
  read_csv path = Ok df -> both_columns df -> rows df <> [] ->
  to_datetime (sorted_date_column df) = Ok ts ->
  (forall w, prepare df w = (w, Normal (prepared_frame df ts)))
  /\ forecast_py path = run (forecast_stage (prepared_frame df ts))
  /\ (exists cs, o_calls (forecast_py path) = CallImport :: cs)
  /\ Forall (fun r => y r = to_numeric (p_rating r) /\ isna (y r) = false)
            (prepared_frame df ts)
  /\ Forall (fun dy => isna (snd dy) = false) (getitem_ds_y (prepared_frame df ts))
  /\ Permutation (map (@p_rating _ _ _) (prepared_frame df ts))
                 (filter numeric (map (fun r : Row Cell => r "rating") (rows df))).
Proof.
  intros Hread Hc Hrows Hts.
  rewrite (main_loaded _ Hread), (process_parsed Hc Hrows Hts).
  repeat apply conj.
  - intros w. now apply prepare_parsed.
  - reflexivity.
  - apply forecast_stage_imports.
  - apply prepared_frame_numeric.
  - unfold getitem_ds_y. apply Forall_map. simpl.
    eapply Forall_impl; [|apply prepared_frame_numeric]. now intros r [_ H].
  - now apply prepared_frame_ratings.
Qed.

(** Once line 29 has parsed the dates: a table with both columns and at
    least one row, all of whose ratings fail the coercion, is not answered
    with the null result: the process enters the forecasting stage with an
    empty frame, imports the package, and, once a model is constructed,
    calls [fit] on the empty series. *)
Theorem all_invalid_ratings_reach_forecaster
    (path : string) (df : Table Cell) (ts : list Timestamp) :
  read_csv path = Ok df -> both_columns df -> rows df <> [] ->
  (forall r, In r (rows df) -> isna (to_numeric (r "rating")) = true) ->
  to_datetime (sorted_date_column df) = Ok ts ->
  forecast_py path = run (forecast_stage [])
  /\ forecast_py path <> null_result
  /\ (exists cs, o_calls (forecast_py path) = CallImport :: cs)
  /\ (forall m, import_Prophet = Ok tt -> Prophet_init true = Ok m ->
                In (CallFit []) (o_calls (forecast_py path))).
Proof.
  intros Hread Hc Hrows Hall Hts.
  rewrite (main_loaded _ Hread), (process_parsed Hc Hrows Hts),
    (prepared_frame_all_invalid df ts Hall).
  pose proof (forecast_stage_imports []) as Hcalls.
  repeat apply conj.
  - reflexivity.
  - destruct Hcalls as (cs & Hcs). intros Heq. rewrite Heq in Hcs. discriminate.
  - exact Hcalls.
  - intros m Hi Hm.
    destruct (try_raises_or_returns []) as [(msg & cs & H)|(yhat & H)].
    + rewrite (forecast_try_raises Hi H). simpl.
      destruct H; simpl; auto; congruence.
    + rewrite (forecast_try_returns Hi H). simpl. auto.
Qed.

(** What the sort on line 28 does give: the frame [prepare] returns is
    ascending in the loaded [date] values, compared the way [sort_values]
    compares them (the sort comes before the parsing), and holds no row
    whose rating is [NaN]; so does the series taken from it. *)
Theorem series_sorted_by_loaded_date
    (df : Table Cell) (w w' : World) (frame : Frame) :
  prepare df w = (w', Normal frame) ->
  StronglySorted raw_date_le frame
  /\ Forall (fun r => isna (y r) = false) frame
  /\ Forall (fun dy => isna (snd dy) = false) (getitem_ds_y frame).
Proof.
  intros H. apply prepare_inv in H as (ts & _ & ->).
  assert (Hn : Forall (fun r => isna (y r) = false) (prepared_frame df ts))
    by (eapply Forall_impl; [|apply prepared_frame_numeric]; now intros r [_ H]).
  repeat apply conj.
  - apply prepared_frame_sorted.
  - exact Hn.
  - unfold getitem_ds_y. now apply Forall_map.
Qed.

(** C4, as the code has it: two tables with the same columns and the same
    rows in another order, the dates pairwise distinct, are prepared to
    the same frame and end the process the same way: same stdout, same
    stderr, same calls, same status. *)
Theorem shuffled_rows_same_forecast
    (path1 path2 : string) (df1 df2 : Table Cell) :
  read_csv path1 = Ok df1 -> read_csv path2 = Ok df2 ->
  columns df1 = columns df2 ->
  Permutation (rows df1) (rows df2) ->
  NoDup (map (fun r : Row Cell => r "date") (rows df1)) ->
  (forall w, prepare df1 w = prepare df2 w)
  /\ forecast_py path1 = forecast_py path2.
Proof.
  intros H1 H2 Hc Hp Hnd.
  pose proof (sort_values_shuffled df1 df2 Hp Hnd) as Hs.
  split.
  - intros w. now apply prepare_shuffled.
  - rewrite (main_loaded _ H1), (main_loaded _ H2).
    unfold run. now rewrite (process_shuffled df1 df2 empty_world Hc Hp Hs).
Qed.
End Properties.

(** ** The script on the sample files *)

Module OnSamples.
Import Reference Samples.
#[local] Existing Instance pandas.

(** Finds a call in the calls of a run. *)
Ltac find_call := repeat (first [left; reflexivity | right]).

Lemma read_failure_exits_2_witness :
  read_csv (Pandas := pandas) "nowhere.csv"
  = Raise "[Errno 2] No such file or directory: 'nowhere.csv'"
  /\ o_stderr (script "nowhere.csv")
     = "csv-read-failed: [Errno 2] No such file or directory: 'nowhere.csv'" ++ nl
  /\ exit_status (o_end (script "nowhere.csv")) = 2%Z.
Proof.
  pose proof (@read_failure_exits_2 pandas prophet "nowhere.csv" _ eq_refl) as H.
  split; [reflexivity|]. split; apply H.
Defined.

Lemma missing_column_exits_3_witness :
  read_csv (Pandas := pandas) "no_rating.csv" = Ok no_rating_csv
  /\ has_column "rating" no_rating_csv = false
  /\ script "no_rating.csv" = missing_columns_result
  /\ both_columns ratings_csv
  /\ exit_status (o_end (script "ratings.csv")) <> 3%Z.
Proof.
  assert (Hc : both_columns ratings_csv) by (split; reflexivity).
  split; [reflexivity|]. split; [reflexivity|]. split; [|split; [exact Hc|]].
  - apply (@missing_column_exits_3 pandas prophet "no_rating.csv" no_rating_csv eq_refl).
    right. reflexivity.
  - now apply (@missing_column_exits_3 pandas prophet "ratings.csv" ratings_csv eq_refl).
Defined.

Lemma empty_table_prints_null_witness :
  read_csv (Pandas := pandas) "empty.csv" = Ok empty_csv
  /\ both_columns empty_csv
  /\ len empty_csv = 0
  /\ script "empty.csv" = null_result
  /\ bytes (o_stdout (script "empty.csv")) = null_line_bytes.
Proof.
  assert (Hc : both_columns (P := pandas) empty_csv) by (split; reflexivity).
  pose proof (@empty_table_prints_null pandas prophet "empty.csv" empty_csv
                eq_refl Hc eq_refl) as H.
  split; [reflexivity|]. split; [exact Hc|]. split; [reflexivity|].
  split; apply H.
Defined.

Lemma empty_table_needs_no_prophet_witness :
  import_Prophet (ProphetPkg := no_prophet) = Raise no_module
  /\ script_without_prophet "empty.csv" = null_result
  /\ exit_status (o_end (script_without_prophet "empty.csv")) = 0%Z
  /\ exit_status (o_end (script_without_prophet "ratings.csv")) = 4%Z.
Proof.
  assert (Hc : both_columns (P := pandas) empty_csv) by (split; reflexivity).
  pose proof (@empty_table_needs_no_prophet pandas no_prophet "empty.csv" empty_csv
                no_module eq_refl eq_refl Hc eq_refl) as H.
  split; [reflexivity|]. split; [apply H|]. split; [apply H|]. reflexivity.
Defined.

(** Two prepared rows, enough for the stand-in to fit. *)
Definition two_rows : Frame (P := pandas) :=
  [MkPrepared (Some "2024-01-01") (Some "3") (Some (2024, 1, 1)%Z) (Some 3%Z);
   MkPrepared (Some "2024-01-02") (Some "4") (Some (2024, 1, 2)%Z) (Some 4%Z)].

Lemma forecast_failures_are_reported_witness :
  run (forecast_stage (F := no_prophet) two_rows) = import_failed_result no_module
  /\ run (forecast_stage (F := prophet) [])
     = fit_failed_result "Dataframe has less than 2 non-NaN rows."
                         [CallProphet true; CallFit []]
  /\ run (forecast_stage (F := prophet) two_rows)
     = success_result two_rows (Some 4%Z).
Proof.
  split; [|split].
  - now apply (@forecast_failures_are_reported pandas no_prophet two_rows).
  - apply (@forecast_failures_are_reported pandas prophet []); [reflexivity|].
    eapply (@raises_fit pandas prophet); reflexivity.
  - apply (@forecast_failures_are_reported pandas prophet two_rows); [reflexivity|].
    eapply (@returns_yhat pandas prophet); reflexivity.
Defined.

(** The frames [prepare] builds from three of the sample tables. *)
Definition us_dates_frame : Frame :=
  [MkPrepared (Some "1/10/2024") (Some "4") (Some (2024, 1, 10)%Z) (Some 4%Z);
   MkPrepared (Some "1/9/2024") (Some "3") (Some (2024, 1, 9)%Z) (Some 3%Z)].

Definition same_day_frame : Frame :=
  [MkPrepared (Some "2024-01-01") (Some "1") (Some (2024, 1, 1)%Z) (Some 1%Z);
   MkPrepared (Some "2024-01-01") (Some "2") (Some (2024, 1, 1)%Z) (Some 2%Z)].

Definition same_day_swapped_frame : Frame :=
  [MkPrepared (Some "2024-01-01") (Some "2") (Some (2024, 1, 1)%Z) (Some 2%Z);
   MkPrepared (Some "2024-01-01") (Some "1") (Some (2024, 1, 1)%Z) (Some 1%Z)].

Lemma ratings_csv_columns : both_columns ratings_csv.
Proof. split; reflexivity. Qed.

Lemma invalid_ratings_are_dropped_witness :
  read_csv "ratings.csv" = Ok ratings_csv
  /\ rows ratings_csv <> []
  /\ script "ratings.csv" = run (forecast_stage (F := prophet)
                                   (prepared_frame ratings_csv
                                      [Some (2024, 1, 1); Some (2024, 1, 2);
                                       Some (2024, 1, 3); Some (2024, 1, 4)]%Z))
  /\ In (CallFit [(Some (2024, 1, 1), Some 3); (Some (2024, 1, 3), Some 5)]%Z)
        (o_calls (script "ratings.csv")).
Proof.
  assert (Hrows : rows ratings_csv <> []) by discriminate.
  pose proof (@invalid_ratings_are_dropped pandas prophet "ratings.csv" ratings_csv
                [Some (2024, 1, 1); Some (2024, 1, 2);
                 Some (2024, 1, 3); Some (2024, 1, 4)]%Z
                eq_refl ratings_csv_columns Hrows eq_refl) as H.
  split; [reflexivity|]. split; [exact Hrows|]. split; [apply H|].
  find_call.
Defined.

Lemma all_invalid_ratings_reach_forecaster_witness :
  read_csv "all_invalid.csv" = Ok all_invalid_csv
  /\ (forall r, In r (rows all_invalid_csv) -> isna (to_numeric (r "rating")) = true)
  /\ script "all_invalid.csv" = run (forecast_stage (F := prophet) [])
  /\ script "all_invalid.csv" <> null_result
  /\ In (CallFit []) (o_calls (script "all_invalid.csv"))
  /\ exit_status (o_end (script "all_invalid.csv")) = 5%Z.
Proof.
  assert (Hc : both_columns all_invalid_csv) by (split; reflexivity).
  assert (Hrows : rows all_invalid_csv <> []) by discriminate.
  assert (Hall : forall r, In r (rows all_invalid_csv) ->
                           isna (to_numeric (r "rating")) = true)
    by (intros r [<- | [<- | []]]; reflexivity).
  pose proof (@all_invalid_ratings_reach_forecaster pandas prophet
                "all_invalid.csv" all_invalid_csv
                [Some (2024, 1, 1); Some (2024, 1, 2)]%Z
                eq_refl Hc Hrows Hall eq_refl) as (H1 & H2 & _ & H4).
  split; [reflexivity|]. split; [exact Hall|]. split; [exact H1|].
  split; [exact H2|]. split; [|reflexivity].
  now apply (H4 []).
Defined.

(** C3: the series handed to the forecaster is not always ascending by
    calendar date.  Line 28 sorts the [date] column as loaded, before line
    29 parses it: the rows of [us_dates.csv] are sorted as text, 1/10/2024
    before 1/9/2024, and the series handed to [fit] has 10 January before
    9 January. *)
Lemma sorted_by_calendar_date_counterexample :
  exists frame : Frame,
    prepare us_dates_csv empty_world = (empty_world, Normal frame)
    /\ getitem_ds_y frame
       = [(Some (2024, 1, 10), Some 4); (Some (2024, 1, 9), Some 3)]%Z
    /\ In (CallFit (getitem_ds_y frame)) (o_calls (script "us_dates.csv"))
    /\ ~ Sorted calendar_le frame.
Proof.
  exists us_dates_frame. split; [reflexivity|]. split; [reflexivity|]. split.
  - find_call.
  - intros S. inversion S as [|a l _ Hd]. inversion Hd as [|b l' Hle].
    discriminate Hle.
Qed.

Lemma series_sorted_by_loaded_date_witness :
  exists frame : Frame,
    prepare us_dates_csv empty_world = (empty_world, Normal frame)
    /\ map (@p_date _ _ _) frame = [Some "1/10/2024"; Some "1/9/2024"]
    /\ StronglySorted raw_date_le frame.
Proof.
  exists us_dates_frame. split; [reflexivity|]. split; [reflexivity|].
  now apply (@series_sorted_by_loaded_date pandas us_dates_csv
               empty_world empty_world _ eq_refl).
Defined.

(** C4, as the claim has it, fails: [same_day.csv] and
    [same_day_swapped.csv] hold the same two rows, both dated 2024-01-01,
    in opposite orders; the sort keeps each order, so the prepared frames
    and the series handed to [fit] differ. *)
Lemma shuffled_same_day_counterexample :
  columns same_day_csv = columns same_day_swapped_csv
  /\ Permutation (rows same_day_csv) (rows same_day_swapped_csv)
  /\ exists frame swapped : Frame,
       prepare same_day_csv empty_world = (empty_world, Normal frame)
       /\ prepare same_day_swapped_csv empty_world = (empty_world, Normal swapped)
       /\ getitem_ds_y frame
          = [(Some (2024, 1, 1), Some 1); (Some (2024, 1, 1), Some 2)]%Z
       /\ getitem_ds_y swapped
          = [(Some (2024, 1, 1), Some 2); (Some (2024, 1, 1), Some 1)]%Z
       /\ frame <> swapped
       /\ In (CallFit (getitem_ds_y frame)) (o_calls (script "same_day.csv"))
       /\ In (CallFit (getitem_ds_y swapped)) (o_calls (script "same_day_swapped.csv")).
Proof.
  split; [reflexivity|]. split; [apply perm_swap|].
  exists same_day_frame, same_day_swapped_frame.
  split; [reflexivity|]. split; [reflexivity|].
  split; [reflexivity|]. split; [reflexivity|]. split; [|split].
  - intros H. apply (f_equal (map (@y _ _ _))) in H. discriminate H.
  - find_call.
  - find_call.
Qed.

Lemma shuffled_rows_same_forecast_witness :
  Permutation (rows ratings_csv) (rows ratings_shuffled_csv)
  /\ NoDup (map (fun r : Row RCell => r "date") (rows ratings_csv))
  /\ script "ratings.csv" = script "ratings_shuffled.csv".
Proof.
  assert (Hp : Permutation (rows ratings_csv) (rows ratings_shuffled_csv))
    by exact (Permutation_rev (rows ratings_csv)).
  assert (Hnd : NoDup (map (fun r : Row RCell => r "date") (rows ratings_csv)))
    by (repeat constructor; simpl; intuition discriminate).
  split; [exact Hp|]. split; [exact Hnd|].
  now apply (@shuffled_rows_same_forecast pandas prophet
               "ratings.csv" "ratings_shuffled.csv" ratings_csv ratings_shuffled_csv
               eq_refl eq_refl eq_refl Hp Hnd).
Defined.

(** C2: a date that is not a date.  [bad_date.csv] has both columns and
    one row; [to_datetime] raises on it outside every [try], so the
    process ends in an uncaught exception, status 1, having written
    nothing and called nothing. *)
Theorem unparseable_date_is_uncaught :
  both_columns bad_date_csv
  /\ len bad_date_csv = 1
  /\ prepare bad_date_csv empty_world
     = (empty_world,
        Raised (Exception "Unknown datetime string format, unable to parse: not-a-date"))
  /\ script "bad_date.csv"
     = MkOutcome "" "" []
         (Crashed "Unknown datetime string format, unable to parse: not-a-date")
  /\ exit_status (o_end (script "bad_date.csv")) = 1%Z.
Proof.
  split; [split; reflexivity|]. repeat split.
Qed.
End OnSamples.

(** ** Every ending of the process

    The script has seven ways to end.  [ending path o] lists them with the
    condition under which each happens; [forecast_py] is shown to follow
    that list, and the properties below are read off it. *)

Section Endings.
Context {P : Pandas} {F : ProphetPkg P}.

Definition read_failed_result (msg : string) : Outcome :=
  MkOutcome "" ("csv-read-failed: " ++ msg ++ nl) [] (Exited 2).

Definition crashed_result (msg : string) : Outcome :=
  MkOutcome "" "" [] (Crashed msg).

Definition missing_column (df : Table Cell) : Prop :=
  has_column "date" df = false \/ has_column "rating" df = false.

(** The table at [path] gets through the preparation, which builds
    [frame]. *)
Definition reaches_forecaster (path : string) (frame : Frame) : Prop :=
  exists df ts,
    read_csv path = Ok df /\ both_columns df /\ rows df <> []
    /\ to_datetime (sorted_date_column df) = Ok ts
    /\ frame = prepared_frame df ts.

Inductive ending (path : string) : Outcome -> Prop :=
| end_read_failed msg :
    read_csv path = Raise msg ->
    ending path (read_failed_result msg)
| end_missing_column df :
    read_csv path = Ok df -> missing_column df ->
    ending path missing_columns_result
| end_no_rows df :
    read_csv path = Ok df -> both_columns df -> rows df = [] ->
    ending path null_result
| end_crashed df msg :
    read_csv path = Ok df -> both_columns df -> rows df <> [] ->
    to_datetime (sorted_date_column df) = Raise msg ->
    ending path (crashed_result msg)
| end_import_failed frame msg :
    reaches_forecaster path frame ->
    import_Prophet = Raise msg ->
    ending path (import_failed_result msg)
| end_fit_failed frame msg cs :
    reaches_forecaster path frame ->
    import_Prophet = Ok tt -> try_raises frame msg cs ->
    ending path (fit_failed_result msg cs)
| end_success frame yhat :
    reaches_forecaster path frame ->
    import_Prophet = Ok tt -> try_returns frame yhat ->
    ending path (success_result frame yhat).

(** The cells a prepared row was built from. *)
Definition cells (r : Prepared Cell Timestamp Float) : Selected Cell :=
  MkSelected (p_date r) (p_rating r).

Lemma columns_both_or_missing (df : Table Cell) :
  both_columns df \/ missing_column df.
Proof.
  unfold both_columns, missing_column.
  destruct (has_column "date" df), (has_column "rating" df); auto.
Qed.

Lemma reaches_forecaster_run (path : string) (frame : Frame) :
  reaches_forecaster path frame ->
  forecast_py path = run (forecast_stage frame).
Proof.
  intros (df & ts & Hread & Hc & Hrows & Hts & ->).
  rewrite (main_loaded _ Hread). now apply process_parsed.
Qed.

Lemma ending_sound (path : string) (o : Outcome) :
  ending path o -> forecast_py path = o.
Proof.
  intros [msg H | df H Hm | df H Hc Hr | df msg H Hc Hr Hts
         | frame msg Hf Hi | frame msg cs Hf Hi Ht | frame yhat Hf Hi Ht].
  - now apply main_read_failed.
  - rewrite (main_loaded _ H). now apply process_missing_columns.
  - rewrite (main_loaded _ H). now apply process_no_rows.
  - rewrite (main_loaded _ H). now apply process_unparsed.
  - rewrite (reaches_forecaster_run Hf). now apply forecast_import_failed.
  - rewrite (reaches_forecaster_run Hf). now apply forecast_try_raises.
  - rewrite (reaches_forecaster_run Hf). now apply forecast_try_returns.
Qed.

Lemma ending_total (path : string) : exists o, ending path o.
Proof.
  destruct (read_csv path) as [df|msg] eqn:Hread;
    [|eexists; eapply end_read_failed; eassumption].
  destruct (columns_both_or_missing df) as [Hc|Hm];
    [|eexists; eapply end_missing_column; eassumption].
  destruct (rows df) as [|r rs] eqn:Hrows;
    [eexists; eapply end_no_rows; eassumption|].
  assert (Hne : rows df <> []) by (rewrite Hrows; discriminate).
  destruct (to_datetime (sorted_date_column df)) as [ts|msg] eqn:Hts;
    [|eexists; eapply end_crashed; eassumption].
  assert (Hf : reaches_forecaster path (prepared_frame df ts))
    by (exists df, ts; auto).
  destruct import_Prophet as [[]|msg] eqn:Hi;
    [|eexists; eapply end_import_failed; eassumption].
  destruct (try_raises_or_returns (prepared_frame df ts))
    as [(msg & cs & Ht)|(yhat & Ht)].
  - eexists; eapply end_fit_failed; eassumption.
  - eexists; eapply end_success; eassumption.
Qed.

Lemma forecast_py_ending (path : string) : ending path (forecast_py path).
Proof.
  destruct (ending_total path) as (o & H).
  now rewrite (ending_sound H).
Qed.

Lemma try_raises_fit (frame : Frame) (msg : string) (cs : list call) (s : Series) :
  try_raises frame msg cs -> In (CallFit s) cs -> s = getitem_ds_y frame.
Proof.
  intros H Hin.
  destruct H; simpl in Hin;
    repeat match goal with
           | H : _ \/ _ |- _ => destruct H
           | H : False |- _ => destruct H
           | H : CallFit _ = CallFit _ |- _ => injection H as H; now subst
           | H : _ = CallFit _ |- _ => discriminate H
           end.
Qed.
End Endings.

(** ** Further properties of the script *)

Section MoreProperties.
Context {P : Pandas} {F : ProphetPkg P}.

(** Case analysis on how the run on [path] ends. *)
Ltac by_ending path :=
  let E := fresh "E" in
  let o := fresh "o" in
  let Ho := fresh "Ho" in
  pose proof (forecast_py_ending path) as E;
  remember (forecast_py path) as o eqn:Ho; clear Ho; destruct E.

(** The run on [path] ends in [o], by the conditions at hand. *)
Ltac ends_with o :=
  let E := fresh "E" in
  assert (E : ending _ o) by (econstructor; eassumption);
  rewrite (ending_sound E); reflexivity.

Lemma prepared_frame_length (df : Table Cell) (ts : list Timestamp) :
  List.length (prepared_frame df ts) <= len df.
Proof.
  unfold prepared_frame, dropna_y, assign_ds_y, len.
  etransitivity; [apply filter_length_le|].
  rewrite length_map, length_combine.
  rewrite <- (Permutation_length (sort_values_perm (select_date_rating df))).
  unfold select_date_rating. rewrite length_map. apply Nat.le_min_l.
Qed.

Lemma prepared_frame_clean (df : Table Cell) (ts : list Timestamp) :
  Forall (fun dy => isna (snd dy) = false) (getitem_ds_y (prepared_frame df ts)).
Proof.
  unfold getitem_ds_y. apply Forall_map. simpl.
  eapply Forall_impl; [|apply prepared_frame_numeric]. now intros r [_ H].
Qed.

Lemma assign_ds_y_cells (l : list (Selected Cell)) :
  forall ts, List.length ts = List.length l ->
             map cells (dropna_y (assign_ds_y l ts))
             = filter (fun s => numeric (rating s)) l.
Proof.
  unfold dropna_y, assign_ds_y, numeric, cells.
  induction l as [|[d c] l IH]; intros [|t ts] Hlen; simpl in *; try discriminate;
    [reflexivity|].
  destruct (isna (to_numeric c)); simpl; rewrite IH by lia; reflexivity.
Qed.

Lemma in_combine_map (A B C : Type) (f : A -> C) (l : list A) :
  forall (ts : list B) a t,
    In (a, t) (combine l ts) -> In (f a, t) (combine (map f l) ts).
Proof.
  induction l as [|x l IH]; intros [|u ts] a t; simpl; try contradiction.
  intros [H|H]; [left; now inversion H | right; now apply IH].
Qed.

Lemma prepared_frame_cells (df : Table Cell) (ts : list Timestamp) :
  to_datetime (sorted_date_column df) = Ok ts ->
  Permutation (map cells (prepared_frame df ts))
              (filter (fun s => numeric (rating s)) (select_date_rating df)).
Proof.
  intros Hts. unfold prepared_frame. rewrite assign_ds_y_cells.
  - apply Permutation_filter. symmetry. apply sort_values_perm.
  - apply to_datetime_length in Hts. rewrite Hts.
    unfold sorted_date_column. now rewrite length_map.
Qed.

(** What the script itself writes, and how it ends.  It returns, having
    printed one line [{"yhat": v}], [v] being [null] or the float as
    [json.dumps] renders it, and nothing on stderr; or an exception
    escapes, the script having written nothing; or it exits with status 2,
    3, 4 or 5, having printed nothing, and having written to stderr the one
    message of that status.  What the libraries write to the process
    streams on their own (warnings, fitting logs, a traceback) is not part
    of [o_stdout] and [o_stderr]. *)
Definition own_output_protocol (o : Outcome) : Prop :=
  (o_end o = Returned
   /\ o_stderr o = ""
   /\ exists v, o_stdout o = json_dumps v ++ nl)
  \/ (exists msg, o_end o = Crashed msg /\ o_stdout o = "" /\ o_stderr o = "")
  \/ (o_stdout o = ""
      /\ ((o_end o = Exited 2
           /\ exists msg, o_stderr o = "csv-read-failed: " ++ msg ++ nl)
          \/ (o_end o = Exited 3 /\ o_stderr o = "csv-missing-columns" ++ nl)
          \/ (o_end o = Exited 4
              /\ exists msg, o_stderr o = "prophet-import-failed: " ++ msg ++ nl)
          \/ (o_end o = Exited 5
              /\ exists msg, o_stderr o = "prophet-fit-failed: " ++ msg ++ nl))).

Lemma main_output_protocol (path : string) :
  own_output_protocol (forecast_py path).
Proof.
  unfold own_output_protocol. by_ending path; simpl.
  - right; right. split; [reflexivity|]. left. split; [reflexivity|]. now exists msg.
  - right; right. split; [reflexivity|]. right; left. now split.
  - left. split; [reflexivity|]. split; [reflexivity|]. now exists None.
  - right; left. now exists msg.
  - right; right. split; [reflexivity|]. right; right; left.
    split; [reflexivity|]. now exists msg.
  - right; right. split; [reflexivity|]. right; right; right.
    split; [reflexivity|]. now exists msg.
  - left. split; [reflexivity|]. split; [reflexivity|]. now exists (Some yhat).
Qed.

(** The exit status against its cause, for the run on [path] that ended in
    [o].  Status 2 means [read_csv] raised; 3 that a column is missing; 4
    that the table got through the preparation and the import failed; 5
    that, the import done, a call of the [try] body raised; 0 that the
    table had no rows or every call returned.  An exception escapes exactly
    when [to_datetime] raises on a table with both columns and some row,
    and it is that exception. *)
Definition status_table (path : string) (o : Outcome) : Prop :=
  (exit_status (o_end o) = 2%Z
   <-> exists msg, read_csv path = Raise msg)
  /\ (exit_status (o_end o) = 3%Z
      <-> exists df, read_csv path = Ok df /\ missing_column df)
  /\ (exit_status (o_end o) = 4%Z
      <-> exists frame msg,
            reaches_forecaster path frame /\ import_Prophet = Raise msg)
  /\ (exit_status (o_end o) = 5%Z
      <-> exists frame msg cs,
            reaches_forecaster path frame /\ import_Prophet = Ok tt
            /\ try_raises frame msg cs)
  /\ (exit_status (o_end o) = 0%Z
      <-> (exists df, read_csv path = Ok df /\ both_columns df /\ rows df = [])
          \/ exists frame yhat,
               reaches_forecaster path frame /\ import_Prophet = Ok tt
               /\ try_returns frame yhat)
  /\ (forall msg,
        o_end o = Crashed msg
        <-> exists df, read_csv path = Ok df /\ both_columns df /\ rows df <> []
                       /\ to_datetime (sorted_date_column df) = Raise msg).

Lemma main_status_table (path : string) :
  status_table path (forecast_py path).
Proof.
  unfold status_table.
  refine (conj _ (conj _ (conj _ (conj _ (conj _ _))))); try intros crash; split.
  - intros H. by_ending path; simpl in H; try discriminate H. eauto.
  - intros (msg & H). ends_with (read_failed_result msg).
  - intros H. by_ending path; simpl in H; try discriminate H. eauto.
  - intros (df & H & Hm). ends_with missing_columns_result.
  - intros H. by_ending path; simpl in H; try discriminate H. eauto.
  - intros (frame & msg & Hf & Hi).
    ends_with (import_failed_result msg).
  - intros H. by_ending path; simpl in H; try discriminate H. eauto 6.
  - intros (frame & msg & cs & Hf & Hi & Ht).
    ends_with (fit_failed_result msg cs).
  - intros H. by_ending path; simpl in H; try discriminate H; eauto 6.
  - intros [(df & H & Hc & Hr) | (frame & yhat & Hf & Hi & Ht)].
    + ends_with null_result.
    + ends_with (success_result frame yhat).
  - intros H. by_ending path; simpl in H; try discriminate H.
    injection H as ->. eauto 6.
  - intros (df & H & Hc & Hr & Hts).
    ends_with (crashed_result crash).
Qed.

(** X3: the forecasting package is imported exactly when the table at the
    path has both columns and some row and its dates parse; on every other
    path (unreadable file, missing column, no rows, bad date) the process
    ends without touching the package. *)
Theorem import_attempted_iff (path : string) :
  In CallImport (o_calls (forecast_py path))
  <-> exists frame, reaches_forecaster path frame.
Proof.
  split.
  - intros H. by_ending path; simpl in H; try contradiction; eauto.
  - intros (frame & Hf). rewrite (reaches_forecaster_run Hf).
    destruct (forecast_stage_imports frame) as (cs & ->). now left.
Qed.

(** X5: whenever [fit] is called, its argument is the [ds] and [y] columns
    of the prepared frame of the table at the path: it holds no [NaN]
    rating and at most as many observations as the table has rows. *)
Theorem fit_gets_clean_series (path : string) (s : Series) :
  In (CallFit s) (o_calls (forecast_py path)) ->
  exists df ts,
    read_csv path = Ok df
    /\ to_datetime (sorted_date_column df) = Ok ts
    /\ s = getitem_ds_y (prepared_frame df ts)
    /\ Forall (fun dy => isna (snd dy) = false) s
    /\ List.length s <= len df.
Proof.
  intros H.
  assert (Hs : exists frame, reaches_forecaster path frame /\ s = getitem_ds_y frame).
  { by_ending path; simpl in H; try contradiction.
    - destruct H as [H|[]]. discriminate H.
    - destruct H as [H|H]; [discriminate H|].
      exists frame. split; [assumption|]. eapply try_raises_fit; eassumption.
    - exists frame. split; [assumption|].
      repeat (destruct H as [H|H]; try discriminate H); try contradiction.
      now injection H as <-. }
  destruct Hs as (frame & (df & ts & Hread & _ & _ & Hts & ->) & ->).
  exists df, ts. repeat apply conj; auto.
  - apply prepared_frame_clean.
  - unfold getitem_ds_y. rewrite length_map. apply prepared_frame_length.
Qed.

(** X6: the preparation keeps each date with its rating and each timestamp
    with its date.  The (date, rating) pairs of the prepared frame are,
    up to order, the pairs of the loaded rows whose rating coerces to a
    number, and each row's timestamp stands in [to_datetime]'s result at
    the place of the row's own date. *)
Theorem prepared_rows_keep_their_cells (df : Table Cell) (ts : list Timestamp) :
  to_datetime (sorted_date_column df) = Ok ts ->
  Permutation (map cells (prepared_frame df ts))
              (filter (fun s => numeric (rating s)) (select_date_rating df))
  /\ Forall (fun r => In (p_date r, ds r) (combine (sorted_date_column df) ts))
            (prepared_frame df ts).
Proof.
  intros Hts. split; [now apply prepared_frame_cells|].
  apply Forall_forall. intros r Hr. unfold prepared_frame, dropna_y in Hr.
  apply filter_In in Hr as [Hr _]. unfold assign_ds_y in Hr.
  apply in_map_iff in Hr as ([a t] & Heq & Hin). subst r. simpl.
  unfold sorted_date_column. now apply in_combine_map.
Qed.

(** X7: only the [date] and [rating] columns matter.  Two loaded tables
    that both have the two columns and agree on them row by row end the
    process the same way, whatever other columns they hold and in
    whatever order the columns come. *)
Theorem other_columns_are_ignored (path1 path2 : string) (df1 df2 : Table Cell) :
  read_csv path1 = Ok df1 -> read_csv path2 = Ok df2 ->
  both_columns df1 -> both_columns df2 ->
  select_date_rating df1 = select_date_rating df2 ->
  forecast_py path1 = forecast_py path2.
Proof.
  intros H1 H2 [Hd1 Hr1] [Hd2 Hr2] Hsel.
  rewrite (main_loaded _ H1), (main_loaded _ H2).
  assert (Hlen : len df1 = len df2).
  { unfold len. rewrite <- (length_map (fun r : Row Cell => MkSelected (r "date") (r "rating"))).
    fold (select_date_rating df1). rewrite Hsel.
    unfold select_date_rating. now rewrite length_map. }
  unfold run, process, prepare, getitem_date_rating, bind.
  now rewrite Hd1, Hr1, Hd2, Hr2, Hlen, Hsel.
Qed.

(** X8: shuffling the rows never changes which observations are kept.  For
    two tables with the same rows in another order, dates repeated or not,
    whose date columns both parse, the prepared frames hold the same
    (date, rating) pairs and the same coerced ratings up to order, hence
    equally many rows. *)
Theorem shuffled_rows_same_observations
    (df1 df2 : Table Cell) (ts1 ts2 : list Timestamp) :
  Permutation (rows df1) (rows df2) ->
  to_datetime (sorted_date_column df1) = Ok ts1 ->
  to_datetime (sorted_date_column df2) = Ok ts2 ->
  Permutation (map cells (prepared_frame df1 ts1)) (map cells (prepared_frame df2 ts2))
  /\ Permutation (map (fun r => y r) (prepared_frame df1 ts1))
                 (map (fun r => y r) (prepared_frame df2 ts2))
  /\ List.length (prepared_frame df1 ts1) = List.length (prepared_frame df2 ts2).
Proof.
  intros Hp H1 H2.
  assert (Hc : Permutation (map cells (prepared_frame df1 ts1))
                           (map cells (prepared_frame df2 ts2))).
  { rewrite (prepared_frame_cells df1 H1), (prepared_frame_cells df2 H2).
    apply Permutation_filter. unfold select_date_rating. now apply Permutation_map. }
  assert (Hy : forall df ts,
             map (fun r => y r) (prepared_frame df ts)
             = map (fun c => to_numeric (rating c)) (map cells (prepared_frame df ts))).
  { intros df ts. rewrite map_map. apply map_ext_in. intros r Hr.
    pose proof (prepared_frame_numeric df ts) as Hn.
    rewrite Forall_forall in Hn. now destruct (Hn r Hr). }
  repeat apply conj.
  - exact Hc.
  - rewrite !Hy. now apply Permutation_map.
  - apply Permutation_length in Hc. now rewrite !length_map in Hc.
Qed.

(** X9: the null result is the answer to a table without rows and to
    nothing else: the process ends as it does on a header-only file exactly
    when the table at the path has both columns and no row. *)
Theorem null_result_only_for_no_rows (path : string) :
  forecast_py path = null_result
  <-> exists df, read_csv path = Ok df /\ both_columns df /\ rows df = [].
Proof.
  split.
  - intros H. by_ending path; try discriminate H; eauto.
  - intros (df & H & Hc & Hr). ends_with null_result.
Qed.

(** X10: a table whose ratings all coerce to a number loses no row in the
    preparation: once the dates parse, the prepared frame has one row per
    loaded row, with the same (date, rating) pairs up to order. *)
Theorem valid_rows_are_all_kept (df : Table Cell) (ts : list Timestamp) :
  (forall r, In r (rows df) -> isna (to_numeric (r "rating")) = false) ->
  to_datetime (sorted_date_column df) = Ok ts ->
  Permutation (map cells (prepared_frame df ts)) (select_date_rating df)
  /\ List.length (getitem_ds_y (prepared_frame df ts)) = len df.
Proof.
  intros Hall Hts.
  assert (Hp : Permutation (map cells (prepared_frame df ts)) (select_date_rating df)).
  { rewrite (prepared_frame_cells df Hts).
    rewrite forallb_filter_id; [reflexivity|].
    apply forallb_forall. intros c Hc. unfold select_date_rating in Hc.
    apply in_map_iff in Hc as (r & <- & Hr). unfold numeric. simpl.
    now rewrite (Hall r Hr). }
  split; [exact Hp|].
  apply Permutation_length in Hp. unfold getitem_ds_y, len.
  rewrite length_map in *. rewrite Hp. unfold select_date_rating.
  now rewrite length_map.
Qed.
End MoreProperties.

(** ** The further properties on sample files *)

Module MoreOnSamples.
Import Reference Samples.

(** The rows of [ratings_csv] with a column of notes in front, the two
    columns of the script the other way round. *)
Definition annotated_row (note d r : RCell) : Row RCell :=
  fun label => if String.eqb label "note" then note
               else if String.eqb label "rating" then r
               else if String.eqb label "date" then d
               else None.

Definition annotated_csv : Table RCell :=
  MkTable ["note"; "rating"; "date"]
          [annotated_row (Some "fine") (Some "2024-01-03") (Some "5");
           annotated_row None (Some "2024-01-01") (Some "3");
           annotated_row (Some "typo") (Some "2024-01-02") (Some "oops");
           annotated_row (Some "left early") (Some "2024-01-04") None].

Definition more_files (path : string) : result (Table RCell) :=
  if String.eqb path "annotated.csv" then Ok annotated_csv else files path.

Definition more_pandas : Pandas := reference_pandas more_files.
Definition more_prophet : ProphetPkg more_pandas := last_value_prophet more_pandas (Ok tt).

#[local] Existing Instance pandas.

Ltac find_fit := repeat (first [left; reflexivity | right]).

Definition ratings_series : Series :=
  [(Some (2024, 1, 1), Some 3); (Some (2024, 1, 3), Some 5)]%Z.

Definition ratings_dates : list RTimestamp :=
  [Some (2024, 1, 1); Some (2024, 1, 2); Some (2024, 1, 3); Some (2024, 1, 4)]%Z.

Lemma fit_gets_clean_series_witness :
  In (CallFit ratings_series) (o_calls (script "ratings.csv"))
  /\ exists df ts,
       read_csv "ratings.csv" = Ok df
       /\ to_datetime (sorted_date_column df) = Ok ts
       /\ ratings_series = getitem_ds_y (prepared_frame df ts)
       /\ Forall (fun dy => isna (snd dy) = false) ratings_series
       /\ List.length ratings_series <= len df.
Proof.
  assert (H : In (CallFit ratings_series) (o_calls (script "ratings.csv")))
    by find_fit.
  split; [exact H|].
  exact (@fit_gets_clean_series pandas prophet "ratings.csv" ratings_series H).
Defined.

Lemma prepared_rows_keep_their_cells_witness :
  to_datetime (sorted_date_column ratings_csv) = Ok ratings_dates
  /\ Permutation (map cells (prepared_frame ratings_csv ratings_dates))
                 (filter (fun s => numeric (rating s)) (select_date_rating ratings_csv))
  /\ map cells (prepared_frame ratings_csv ratings_dates)
     = [MkSelected (Some "2024-01-01") (Some "3");
        MkSelected (Some "2024-01-03") (Some "5")].
Proof.
  split; [reflexivity|]. split; [|reflexivity].
  now apply (@prepared_rows_keep_their_cells pandas ratings_csv ratings_dates).
Defined.

Lemma other_columns_are_ignored_witness :
  select_date_rating (P := more_pandas) ratings_csv
  = select_date_rating (P := more_pandas) annotated_csv
  /\ forecast_py (P := more_pandas) (F := more_prophet) "ratings.csv"
     = forecast_py (P := more_pandas) (F := more_prophet) "annotated.csv".
Proof.
  split; [reflexivity|].
  apply (@other_columns_are_ignored more_pandas more_prophet
           "ratings.csv" "annotated.csv" ratings_csv annotated_csv);
    try reflexivity; split; reflexivity.
Defined.

Lemma shuffled_rows_same_observations_witness :
  Permutation (rows same_day_csv) (rows same_day_swapped_csv)
  /\ Permutation
       (map (fun r => y r)
            (prepared_frame same_day_csv [Some (2024, 1, 1); Some (2024, 1, 1)]%Z))
       (map (fun r => y r)
            (prepared_frame same_day_swapped_csv [Some (2024, 1, 1); Some (2024, 1, 1)]%Z)).
Proof.
  assert (Hp : Permutation (rows same_day_csv) (rows same_day_swapped_csv))
    by apply perm_swap.
  split; [exact Hp|].
  now apply (@shuffled_rows_same_observations pandas same_day_csv same_day_swapped_csv
               [Some (2024, 1, 1); Some (2024, 1, 1)]%Z
               [Some (2024, 1, 1); Some (2024, 1, 1)]%Z Hp eq_refl eq_refl).
Defined.

Lemma import_attempted_iff_witness :
  In CallImport (o_calls (script "all_invalid.csv"))
  /\ ~ In CallImport (o_calls (script "bad_date.csv")).
Proof.
  split.
  - apply (@import_attempted_iff pandas prophet "all_invalid.csv").
    exists [], all_invalid_csv, [Some (2024, 1, 1); Some (2024, 1, 2)]%Z.
    repeat apply conj; try reflexivity; discriminate.
  - intros H. apply (@import_attempted_iff pandas prophet "bad_date.csv") in H.
    destruct H as (frame & df & ts & Hread & _ & _ & Hts & _).
    injection Hread as <-. discriminate Hts.
Defined.

Lemma null_result_only_for_no_rows_witness :
  script "empty.csv" = null_result /\ script "all_invalid.csv" <> null_result.
Proof.
  split.
  - apply (@null_result_only_for_no_rows pandas prophet "empty.csv").
    exists empty_csv. repeat apply conj; reflexivity.
  - intros H. apply (@null_result_only_for_no_rows pandas prophet "all_invalid.csv") in H.
    destruct H as (df & Hread & _ & Hrows).
    injection Hread as <-. discriminate Hrows.
Defined.

Lemma valid_rows_are_all_kept_witness :
  (forall r, In r (rows us_dates_csv) -> isna (to_numeric (r "rating")) = false)
  /\ List.length (getitem_ds_y (prepared_frame us_dates_csv
                                  [Some (2024, 1, 10); Some (2024, 1, 9)]%Z))
     = len us_dates_csv.
Proof.
  assert (Hall : forall r, In r (rows us_dates_csv) ->
                           isna (to_numeric (r "rating")) = false)
    by (intros r [<- | [<- | []]]; reflexivity).
  split; [exact Hall|].
  now apply (@valid_rows_are_all_kept pandas us_dates_csv
               [Some (2024, 1, 10); Some (2024, 1, 9)]%Z Hall eq_refl).
Defined.
End MoreOnSamples.

(** ** When the sort by loaded value is a sort by calendar date *)

Section CalendarOrder.
Context {P : Pandas} {F : ProphetPkg P}.

Lemma StronglySorted_map_in (A B : Type) (R : A -> A -> Prop) (R' : B -> B -> Prop)
    (f : A -> B) (l : list A) :
  (forall a b, In a l -> In b l -> R a b -> R' (f a) (f b)) ->
  StronglySorted R l -> StronglySorted R' (map f l).
Proof.
  intros Hmono S. induction S as [|a l S IH Ha]; simpl; [constructor|].
  constructor.
  - apply IH. intros x z Hx Hz. apply Hmono; now right.
  - apply Forall_map. rewrite Forall_forall in *. intros z Hz.
    apply Hmono; [now left | now right | now apply Ha].
Qed.

Lemma combine_map_self (A B : Type) (f : A -> B) (l : list A) :
  combine l (map f l) = map (fun a => (a, f a)) l.
Proof.
  induction l as [|a l IH]; simpl; [reflexivity | now rewrite IH].
Qed.

(** X11: the sort on line 28 orders the loaded values, the parsing comes
    after it.  When [to_datetime] parses the sorted column cell by cell
    with a function that is monotone on the cells of that column (as it is
    for zero-padded year-month-day text), the prepared frame and the series
    taken from it are ascending by calendar date. *)
Theorem calendar_order_under_monotone_parsing
    (df : Table Cell) (parse : Cell -> Timestamp) (w w' : World) (frame : Frame) :
  prepare df w = (w', Normal frame) ->
  to_datetime (sorted_date_column df) = Ok (map parse (sorted_date_column df)) ->
  (forall a b, In a (sorted_date_column df) -> In b (sorted_date_column df) ->
               cell_le a b = true -> ts_le (parse a) (parse b) = true) ->
  StronglySorted calendar_le frame
  /\ StronglySorted (fun a b : Timestamp * Float => ts_le (fst a) (fst b) = true)
                    (getitem_ds_y frame).
Proof.
  intros Hprep Hts Hmono.
  apply prepare_inv in Hprep as (ts & Hts' & ->).
  rewrite Hts in Hts'. injection Hts' as <-.
  assert (S : StronglySorted calendar_le
                (prepared_frame df (map parse (sorted_date_column df)))).
  { unfold prepared_frame, dropna_y, assign_ds_y, sorted_date_column in *.
    apply StronglySorted_filter.
    rewrite map_map, combine_map_self, map_map. simpl.
    eapply StronglySorted_map_in; [|apply sort_values_sorted].
    intros a b Ha Hb Hab. unfold calendar_le. simpl.
    apply Hmono; try (now apply in_map). exact Hab. }
  split; [exact S|].
  unfold getitem_ds_y. eapply StronglySorted_map_in; [|exact S].
  intros a b _ _ Hab. exact Hab.
Qed.
End CalendarOrder.

(** ** The command line

    Lines 8-10: [argparse] either returns the namespace with the value of
    the one required option [--csv], or ends the process itself, having
    printed a help text or a usage error.  It is taken as an interface on
    [sys.argv[1:]]. *)

Inductive parsed : Type :=
| Namespace (csv : string)
| ParserExit (out err : string) (code : Z).

Class ArgParse : Type := {
  parse_args : list string -> parsed
}.

Section CommandLine.
Context {P : Pandas} {F : ProphetPkg P} {A : ArgParse}.

(** [main()], lines 7-48. *)
Definition main_from_argv (argv : list string) : M unit :=
  match parse_args argv with
  | Namespace csv => main csv
  | ParserExit out err code => write_stdout out ;; write_stderr err ;; sys_exit code
  end.

Lemma main_from_argv_parsed (argv : list string) (path : string) :
  parse_args argv = Namespace path ->
  run (main_from_argv argv) = forecast_py path.
Proof.
  intros H. unfold main_from_argv, forecast_py. now rewrite H.
Qed.

(** X1: once [parse_args] has returned the path, the script's own output
    follows one protocol.  It returns, having printed one line
    [{"yhat": v}] and nothing on stderr; or an exception escapes, the
    script having written nothing; or it exits with status 2, 3, 4 or 5,
    having printed nothing and having written to stderr the one message of
    that status.  The script never writes to both streams. *)
Theorem own_output_follows_protocol (argv : list string) (path : string) :
  parse_args argv = Namespace path ->
  own_output_protocol (run (main_from_argv argv)).
Proof.
  intros H. rewrite (main_from_argv_parsed _ H). apply main_output_protocol.
Qed.

(** X2: once [parse_args] has returned the path, the exit status tells the
    cause and the cause the status: 2 exactly when [read_csv] raised, 3
    exactly when a column is missing, 4 exactly when the prepared table met
    a failing import, 5 exactly when a call of the last [try] raised, 0
    exactly when the table had no rows or every call returned; and an
    exception escapes exactly when [to_datetime] raises, with its message:
    nothing raised by [read_csv], the import or the forecaster escapes, and
    the projection never raises a [KeyError]. *)
Theorem exit_status_tells_cause (argv : list string) (path : string) :
  parse_args argv = Namespace path ->
  status_table path (run (main_from_argv argv)).
Proof.
  intros H. rewrite (main_from_argv_parsed _ H). apply main_status_table.
Qed.
End CommandLine.

(** ** Unparseable dates on sample files *)

Module BadDates.
Import Reference Samples.

Definition not_a_date : string :=
  "Unknown datetime string format, unable to parse: not-a-date".

(** One row, whose date and rating are both unreadable. *)
Definition bad_date_bad_rating_csv : Table RCell :=
  MkTable ["date"; "rating"] [row (Some "not-a-date") (Some "bad")].

(** An unreadable date on a row with a good rating, an unreadable rating
    on a row with a good date, and a row that is fine. *)
Definition bad_date_mixed_csv : Table RCell :=
  MkTable ["date"; "rating"]
          [row (Some "not-a-date") (Some "3");
           row (Some "2024-01-02") (Some "oops");
           row (Some "2024-01-03") (Some "5")].

Definition bad_date_files (path : string) : result (Table RCell) :=
  if String.eqb path "bad_date_bad_rating.csv" then Ok bad_date_bad_rating_csv
  else if String.eqb path "bad_date_mixed.csv" then Ok bad_date_mixed_csv
  else files path.

Definition bad_date_pandas : Pandas := reference_pandas bad_date_files.
Definition bad_date_prophet : ProphetPkg bad_date_pandas :=
  last_value_prophet bad_date_pandas (Ok tt).

Definition bad_date_script (path : string) : Outcome :=
  forecast_py (P := bad_date_pandas) (F := bad_date_prophet) path.

#[local] Existing Instance bad_date_pandas.

(** C1: a table with a row, all of whose ratings fail the coercion, is not
    always passed on to the forecaster.  [bad_date_bad_rating.csv] has both
    columns and one row, and its one rating coerces to [NaN]; its date does
    not parse, so line 29 raises before the coercion on line 30: the
    process ends in an uncaught exception with status 1, and the
    forecasting package is never imported.  It is not answered with the
    null result either. *)
Theorem all_invalid_ratings_bad_date_not_forwarded :
  both_columns bad_date_bad_rating_csv
  /\ len bad_date_bad_rating_csv = 1
  /\ (forall r, In r (rows bad_date_bad_rating_csv) ->
                isna (to_numeric (r "rating")) = true)
  /\ bad_date_script "bad_date_bad_rating.csv" = crashed_result not_a_date
  /\ ~ In CallImport (o_calls (bad_date_script "bad_date_bad_rating.csv"))
  /\ exit_status (o_end (bad_date_script "bad_date_bad_rating.csv")) = 1%Z
  /\ bad_date_script "bad_date_bad_rating.csv" <> null_result.
Proof.
  assert (E : bad_date_script "bad_date_bad_rating.csv" = crashed_result not_a_date)
    by reflexivity.
  split; [split; reflexivity|]. split; [reflexivity|]. split.
  { intros r [<- | []]. reflexivity. }
  split; [exact E|]. rewrite E. split; [intros []|]. split; [reflexivity|].
  discriminate.
Qed.

(** C9: a rating that fails the coercion is not always dropped without the
    pipeline being aborted.  [bad_date_mixed.csv] has both columns and
    three rows, one with the rating [oops]; another row has a date that
    does not parse, so line 29 raises before line 30 coerces any rating:
    nothing is dropped, the process ends in an uncaught exception with
    status 1, and no series, with or without the two numeric ratings,
    reaches [fit]. *)
Theorem bad_date_aborts_before_coercion :
  both_columns bad_date_mixed_csv
  /\ len bad_date_mixed_csv = 3
  /\ map (fun r : Row RCell => isna (to_numeric (r "rating"))) (rows bad_date_mixed_csv)
     = [false; true; false]
  /\ prepare bad_date_mixed_csv empty_world
     = (empty_world, Raised (Exception not_a_date))
  /\ bad_date_script "bad_date_mixed.csv" = crashed_result not_a_date
  /\ (forall s, ~ In (CallFit s) (o_calls (bad_date_script "bad_date_mixed.csv")))
  /\ exit_status (o_end (bad_date_script "bad_date_mixed.csv")) = 1%Z.
Proof.
  assert (E : bad_date_script "bad_date_mixed.csv" = crashed_result not_a_date)
    by reflexivity.
  split; [split; reflexivity|]. split; [reflexivity|]. split; [reflexivity|].
  split; [reflexivity|]. split; [exact E|]. rewrite E.
  split; [intros s []|reflexivity].
Qed.

End BadDates.

(** ** The command line and the calendar order on sample files *)

Module OnCommandLine.
Import Reference Samples.
#[local] Existing Instance pandas.

Definition not_a_date : string := BadDates.not_a_date.

(** A stand-in for [argparse] that knows three command lines: the option
    with its value, [-h], and nothing at all. *)
Definition usage : string := "usage: forecast.py [-h] --csv CSV".

Definition csv_option_parser : ArgParse :=
  {| parse_args := fun argv =>
       match argv with
       | ["--csv"; path] => Namespace path
       | ["-h"] => ParserExit (usage ++ nl) "" 0
       | _ => ParserExit ""
                (usage ++ nl
                   ++ "forecast.py: error: the following arguments are required: --csv"
                   ++ nl) 2
       end |}.

Definition command_line (argv : list string) : Outcome :=
  run (main_from_argv (P := pandas) (F := prophet) (A := csv_option_parser) argv).

Lemma own_output_follows_protocol_witness :
  parse_args (ArgParse := csv_option_parser) ["--csv"; "ratings.csv"]
  = Namespace "ratings.csv"
  /\ own_output_protocol (command_line ["--csv"; "ratings.csv"]).
Proof.
  split; [reflexivity|].
  exact (@own_output_follows_protocol pandas prophet csv_option_parser
           ["--csv"; "ratings.csv"] "ratings.csv" eq_refl).
Defined.

Lemma exit_status_tells_cause_witness :
  parse_args (ArgParse := csv_option_parser) ["--csv"; "nowhere.csv"]
  = Namespace "nowhere.csv"
  /\ exit_status (o_end (command_line ["--csv"; "nowhere.csv"])) = 2%Z
  /\ exit_status (o_end (command_line ["--csv"; "no_rating.csv"])) = 3%Z
  /\ o_end (command_line ["--csv"; "bad_date.csv"]) = Crashed not_a_date.
Proof.
  destruct (@exit_status_tells_cause pandas prophet csv_option_parser
              ["--csv"; "nowhere.csv"] "nowhere.csv" eq_refl) as (H2 & _).
  destruct (@exit_status_tells_cause pandas prophet csv_option_parser
              ["--csv"; "no_rating.csv"] "no_rating.csv" eq_refl) as (_ & H3 & _).
  destruct (@exit_status_tells_cause pandas prophet csv_option_parser
              ["--csv"; "bad_date.csv"] "bad_date.csv" eq_refl)
    as (_ & _ & _ & _ & _ & H1).
  split; [reflexivity|]. repeat apply conj.
  - apply H2. eexists. reflexivity.
  - apply H3. exists no_rating_csv. split; [reflexivity | right; reflexivity].
  - apply H1. exists bad_date_csv.
    repeat apply conj; try reflexivity; discriminate.
Defined.

(** The parse of a cell of a text column. *)
Definition parse_cell (c : RCell) : RTimestamp :=
  match c with
  | Some s => parse_date s
  | None => None
  end.

Definition ratings_frame : Frame (P := pandas) :=
  [MkPrepared (Some "2024-01-01") (Some "3") (Some (2024, 1, 1)%Z) (Some 3%Z);
   MkPrepared (Some "2024-01-03") (Some "5") (Some (2024, 1, 3)%Z) (Some 5%Z)].

Lemma calendar_order_under_monotone_parsing_witness :
  prepare (P := pandas) ratings_csv empty_world = (empty_world, Normal ratings_frame)
  /\ StronglySorted (calendar_le (P := pandas)) ratings_frame.
Proof.
  split; [reflexivity|].
  assert (Hcol : sorted_date_column (P := pandas) ratings_csv
                 = [Some "2024-01-01"; Some "2024-01-02";
                    Some "2024-01-03"; Some "2024-01-04"]) by reflexivity.
  apply (@calendar_order_under_monotone_parsing pandas ratings_csv parse_cell
           empty_world empty_world ratings_frame eq_refl).
  - reflexivity.
  - rewrite Hcol.
    intros a b [<- | [<- | [<- | [<- | []]]]] [<- | [<- | [<- | [<- | []]]]] H;
      first [reflexivity | discriminate H].
Defined.
End OnCommandLine.
